(** * Moviesque backend: the response normalizer and the watchlist adapter

    A shallow embedding of [src/main.py]: the upstream records are decoded
    JSON values, handlers are functions in an exception monad, and the
    watchlist collection is a list of documents threaded through the
    handlers. *)

From Stdlib Require Import ZArith QArith Bool List String Ascii Lia.
From stdpp Require Import gmap strings list.
Import ListNotations.

Set Warnings "-register-all".

Local Open Scope string_scope.
Local Open Scope list_scope.
Local Open Scope Z_scope.

(** ** Python values decoded from JSON *)

(** A decoded JSON value.  Objects are dictionaries in insertion order;
    a float is the rational it denotes (the IEEE specials are outside the
    model); a string is a sequence of code points below 256. *)
Inductive json : Type :=
| JNull
| JBool (b : bool)
| JInt (n : Z)
| JFloat (q : Q)
| JStr (s : string)
| JArr (l : list json)
| JObj (d : list (string * json)).

Definition dict := list (string * json).

(** Python's truth value: [None], [False], zero, the empty string and the
    empty containers are false. *)
Definition truthy (v : json) : bool :=
  match v with
  | JNull => false
  | JBool b => b
  | JInt n => negb (n =? 0)
  | JFloat q => negb (Qeq_bool q 0)
  | JStr s => negb (String.eqb s "")
  | JArr l => match l with [] => false | _ => true end
  | JObj d => match d with [] => false | _ => true end
  end.

(** [a or b] evaluates to [a] when it is true and to [b] otherwise. *)
Definition py_or (a b : json) : json := if truthy a then a else b.

(** [v == "s"] for a string literal: only the same string is equal to it. *)
Definition eq_str (v : json) (s : string) : bool :=
  match v with
  | JStr t => String.eqb t s
  | _ => false
  end.

Fixpoint lookup_key (d : dict) (k : string) : option json :=
  match d with
  | [] => None
  | (k', v) :: r => if String.eqb k' k then Some v else lookup_key r k
  end.

(** [d.get(k, default)]: the default stands in only for a missing key. *)
Definition get_default (d : dict) (k : string) (default : json) : json :=
  match lookup_key d k with
  | Some v => v
  | None => default
  end.

(** [d.get(k)] *)
Definition get (d : dict) (k : string) : json := get_default d k JNull.

(** ** Exceptions *)

(** The exceptions the handlers meet.  The detail of an [HTTPException]
    built by [str(e)] is kept as the exception it renders. *)
Inductive exn : Type :=
| HTTPException (status_code : Z) (detail : detail)
| RequestValidationError
| ValueError
| AttributeError
| TypeError
| KeyError
| IndexError
| InvalidId
| StoreError (msg : string)
with detail : Type :=
| Text (s : string)
| StrOf (e : exn).

Inductive result (A : Type) : Type :=
| Ok (a : A)
| Raise (e : exn).
Arguments Ok {A} a.
Arguments Raise {A} e.

Definition bind {A B : Type} (r : result A) (k : A -> result B) : result B :=
  match r with
  | Ok a => k a
  | Raise e => Raise e
  end.

Notation "'let!' x ':=' r 'in' k" := (bind r (fun x => k))
  (at level 10, x name, r at level 100, k at level 200).

Definition returns {A : Type} (r : result A) : Prop := exists a, r = Ok a.

(** ** Python operations on decoded values *)

(** [v.get(k, default)]: only a dictionary has the method. *)
Definition attr_get (v : json) (k : string) (default : json) : result json :=
  match v with
  | JObj d => Ok (get_default d k default)
  | _ => Raise AttributeError
  end.

Definition chars (s : string) : list json :=
  map (fun c => JStr (String c EmptyString)) (list_ascii_of_string s).

(** [iter(v)]: a list gives its elements, a string its characters, a
    dictionary its keys; anything else is not iterable. *)
Definition py_iter (v : json) : result (list json) :=
  match v with
  | JArr l => Ok l
  | JStr s => Ok (chars s)
  | JObj d => Ok (map (fun kv => JStr (fst kv)) d)
  | _ => Raise TypeError
  end.

Fixpoint mapM {A B : Type} (f : A -> result B) (l : list A) : result (list B) :=
  match l with
  | [] => Ok []
  | a :: r => let! b := f a in let! bs := mapM f r in Ok (b :: bs)
  end.

(** *** [str.split] and [int] *)

(** [s.split(sep)] for a one-character separator. *)
Fixpoint py_split (sep : ascii) (s : string) : list string :=
  match s with
  | EmptyString => [EmptyString]
  | String c r =>
      if Ascii.eqb c sep then EmptyString :: py_split sep r
      else match py_split sep r with
           | [] => [String c EmptyString]
           | seg :: segs => String c seg :: segs
           end
  end.

(** The white space [int] skips around a literal. *)
Definition is_space (c : ascii) : bool :=
  let n := N_of_ascii c in
  (((9 <=? n) && (n <=? 13)) || (n =? 32) || (n =? 133) || (n =? 160))%N.

Definition digit_val (c : ascii) : option Z :=
  let n := N_of_ascii c in
  if ((48 <=? n) && (n <=? 57))%N then Some (Z.of_N n - 48) else None.

Fixpoint lstrip (l : list ascii) : list ascii :=
  match l with
  | c :: r => if is_space c then lstrip r else l
  | [] => []
  end.

Definition strip (l : list ascii) : list ascii := rev (lstrip (rev (lstrip l))).

(** Digits with single underscores between them: [after_us] says that the
    previous character was an underscore (or that no digit was read yet),
    where neither an underscore nor the end may follow.  Returns the value
    and the number of digits. *)
Fixpoint scan_digits (l : list ascii) (after_us : bool) (acc : Z) (n : nat)
  : option (Z * nat) :=
  match l with
  | [] => if after_us then None else Some (acc, n)
  | c :: r =>
      if Ascii.eqb c "_"%char then
        if after_us then None else scan_digits r true acc n
      else match digit_val c with
           | Some d => scan_digits r false (10 * acc + d) (S n)
           | None => None
           end
  end.

(** The default of [sys.get_int_max_str_digits()]. *)
Definition int_max_str_digits : nat := 4300.

Definition unsigned_int (l : list ascii) : option Z :=
  match scan_digits l true 0 0 with
  | Some (z, n) => if (n <=? int_max_str_digits)%nat then Some z else None
  | None => None
  end.

(** [int(s)] in base ten; [None] is the [ValueError]. *)
Definition py_int (s : string) : option Z :=
  match strip (list_ascii_of_string s) with
  | c :: r =>
      if Ascii.eqb c "+"%char then unsigned_int r
      else if Ascii.eqb c "-"%char then option_map Z.opp (unsigned_int r)
      else unsigned_int (c :: r)
  | [] => None
  end.

(** ** The normalizer *)

Definition IMG_W500 : string := "https://image.tmdb.org/t/p/w500".
Definition IMG_ORIGINAL : string := "https://image.tmdb.org/t/p/original".

(** [f"{prefix}{arg}"], kept unrendered. *)
Record fstring : Type := Fmt { fmt_prefix : string; fmt_arg : json }.

(** The rendering when the argument is a string, as upstream paths are. *)
Definition render (f : fstring) : option string :=
  match fmt_arg f with
  | JStr s => Some (String.append (fmt_prefix f) s)
  | _ => None
  end.

(** The dictionary [map_item] returns, one field per key. *)
Record CanonicalItem : Type := {
  item_id : json;
  item_media_type : json;
  item_title : json;
  item_overview : json;
  item_poster : option fstring;
  item_backdrop : option fstring;
  item_rating : json;
  item_votes : json;
  item_year : option Z
}.

(** [int(date.split("-")[0]) if date else None] *)
Definition year_of (date : json) : result (option Z) :=
  if truthy date then
    match date with
    | JStr s =>
        match py_int (hd EmptyString (py_split "-"%char s)) with
        | Some y => Ok (Some y)
        | None => Raise ValueError
        end
    | _ => Raise AttributeError
    end
  else Ok None.

Definition image (base : string) (d : dict) (k : string) : option fstring :=
  if truthy (get d k) then Some (Fmt base (get d k)) else None.

Definition map_item (item : json) : result CanonicalItem :=
  match item with
  | JObj d =>
      let media_type :=
        py_or (get d "media_type")
              (if truthy (get d "name") then JStr "tv" else JStr "movie") in
      let title := py_or (get d "title") (get d "name") in
      let date := py_or (get d "release_date") (get d "first_air_date") in
      let! year := year_of date in
      Ok {| item_id := get d "id";
            item_media_type := media_type;
            item_title := title;
            item_overview := get d "overview";
            item_poster := image IMG_W500 d "poster_path";
            item_backdrop := image IMG_ORIGINAL d "backdrop_path";
            item_rating := get d "vote_average";
            item_votes := get d "vote_count";
            item_year := year |}
  | _ => Raise AttributeError
  end.

(** ** The proxy endpoints *)

(** What [requests.get] brought back. *)
Record response : Type := {
  resp_status_code : Z;
  resp_text : string;
  resp_json : result json
}.

(** [r.ok]: the status is no client error (4xx) and no server error (5xx). *)
Definition resp_ok (r : response) : bool :=
  negb ((400 <=? resp_status_code r) && (resp_status_code r <? 600)).

Definition tmdb_get (TMDB_API_KEY : option string) (r : response) : result json :=
  match TMDB_API_KEY with
  | Some (String _ _) =>
      if resp_ok r then resp_json r
      else Raise (HTTPException (resp_status_code r) (Text (resp_text r)))
  | _ => Raise (HTTPException 500 (Text "TMDB_API_KEY is not set in environment"))
  end.

(** [data.get("results", [])], iterated. *)
Definition results_of (data : json) : result (list json) :=
  let! rs := attr_get data "results" (JArr []) in
  py_iter rs.

Definition trending (TMDB_API_KEY : option string) (r : response)
  : result (list CanonicalItem) :=
  let! data := tmdb_get TMDB_API_KEY r in
  let! xs := results_of data in
  mapM map_item xs.

(** [x.get("media_type") in ("movie", "tv")] *)
Definition movie_or_tv (x : json) : result bool :=
  let! mt := attr_get x "media_type" JNull in
  Ok (eq_str mt "movie" || eq_str mt "tv").

Fixpoint filterM {A : Type} (p : A -> result bool) (l : list A) : result (list A) :=
  match l with
  | [] => Ok []
  | a :: r =>
      let! keep := p a in
      let! r' := filterM p r in
      Ok (if keep then a :: r' else r')
  end.

Definition search (TMDB_API_KEY : option string) (r : response)
  : result (list CanonicalItem) :=
  let! data := tmdb_get TMDB_API_KEY r in
  let! xs := results_of data in
  let! filtered := filterM movie_or_tv xs in
  mapM map_item filtered.

(** *** The detail record *)

Record CastMember : Type := {
  cast_id : json;
  cast_name : json;
  cast_character : json;
  cast_profile : option fstring
}.

Record CanonicalItemDetail : Type := {
  detail_item : CanonicalItem;
  detail_genres : list json;
  detail_runtime : json;
  detail_release_date : json;
  detail_tagline : json;
  detail_cast : list CastMember;
  detail_trailer_key : json
}.

(** [v[0]] *)
Definition py_index0 (v : json) : result json :=
  match v with
  | JArr (x :: _) => Ok x
  | JArr [] => Raise IndexError
  | JStr (String c _) => Ok (JStr (String c EmptyString))
  | JStr EmptyString => Raise IndexError
  | JObj _ => Raise KeyError
  | _ => Raise TypeError
  end.

(** [v[:10]]: lists and strings can be sliced (a dictionary raises
    [TypeError], or [KeyError] from Python 3.12 on). *)
Definition py_slice10 (v : json) : result json :=
  match v with
  | JArr l => Ok (JArr (firstn 10 l))
  | JStr s => Ok (JStr (substring 0 10 s))
  | _ => Raise TypeError
  end.

Definition runtime_of (d : dict) : result json :=
  if truthy (get d "runtime") then Ok (get d "runtime")
  else if truthy (get d "episode_run_time")
       then py_index0 (get_default d "episode_run_time" (JArr [JNull]))
       else Ok JNull.

Definition cast_member (c : json) : result CastMember :=
  let! i := attr_get c "id" JNull in
  let! n := attr_get c "name" JNull in
  let! ch := attr_get c "character" JNull in
  let! p := attr_get c "profile_path" JNull in
  Ok {| cast_id := i; cast_name := n; cast_character := ch;
        cast_profile := if truthy p then Some (Fmt IMG_W500 p) else None |}.

Definition cast_of (d : dict) : result (list CastMember) :=
  let! cast := attr_get (get_default d "credits" (JObj [])) "cast" (JArr []) in
  let! first10 := py_slice10 cast in
  let! cs := py_iter first10 in
  mapM cast_member cs.

(** [v.get("site") == "YouTube" and v.get("type") in ("Trailer", "Teaser")] *)
Definition is_trailer (v : json) : result bool :=
  let! site := attr_get v "site" JNull in
  if eq_str site "YouTube" then
    let! ty := attr_get v "type" JNull in
    Ok (eq_str ty "Trailer" || eq_str ty "Teaser")
  else Ok false.

(** [next((v for v in vs if p(v)), None)]: the generator stops at the first
    element that passes, the elements behind it are not looked at. *)
Fixpoint next_match (p : json -> result bool) (vs : list json)
  : result (option json) :=
  match vs with
  | [] => Ok None
  | v :: r =>
      let! b := p v in
      if b then Ok (Some v) else next_match p r
  end.

(** Lines 170 to 172: the value stored under ["trailer_key"]. *)
Definition trailer_key_of (d : dict) : result json :=
  let! videos := attr_get (get_default d "videos" (JObj [])) "results" (JArr []) in
  let! vs := py_iter videos in
  let! yt := next_match is_trailer vs in
  match yt with
  | Some v => if truthy v then attr_get v "key" JNull else Ok JNull
  | None => Ok JNull
  end.

Definition title_details (TMDB_API_KEY : option string) (r : response)
  : result CanonicalItemDetail :=
  let! data := tmdb_get TMDB_API_KEY r in
  let! item := map_item data in
  match data with
  | JObj d =>
      let! gs := py_iter (get_default d "genres" (JArr [])) in
      let! genres := mapM (fun g => attr_get g "name" JNull) gs in
      let! runtime := runtime_of d in
      let! cast := cast_of d in
      let! trailer_key := trailer_key_of d in
      Ok {| detail_item := item;
            detail_genres := genres;
            detail_runtime := runtime;
            detail_release_date :=
              py_or (get d "release_date") (get d "first_air_date");
            detail_tagline := get d "tagline";
            detail_cast := cast;
            detail_trailer_key := trailer_key |}
  | _ => Raise AttributeError
  end.

(** ** The watchlist collection *)

(** Values of a stored document. *)
Inductive bson : Type :=
| BNull
| BBool (b : bool)
| BInt (n : Z)
| BFloat (q : Q)
| BStr (s : string)
| BDate (t : Z)
| BOid (o : list N).

(** A document maps field names to values, ["_id"] among them; the
    collection keeps its documents in natural order. *)
Abbreviation document := (gmap string bson).
Definition collection := list document.

Definition is_hspace (c : ascii) : bool :=
  let n := N_of_ascii c in (((9 <=? n) && (n <=? 13)) || (n =? 32))%N.

Definition hex_val (c : ascii) : option N :=
  let n := N_of_ascii c in
  if ((48 <=? n) && (n <=? 57))%N then Some (n - 48)%N
  else if ((97 <=? n) && (n <=? 102))%N then Some (n - 87)%N
  else if ((65 <=? n) && (n <=? 70))%N then Some (n - 55)%N
  else None.

(** [bytes.fromhex]: pairs of hexadecimal digits, white space between the
    pairs skipped. *)
Fixpoint fromhex (l : list ascii) : option (list N) :=
  match l with
  | [] => Some []
  | c :: r =>
      if is_hspace c then fromhex r
      else match r with
           | c' :: r' =>
               match hex_val c, hex_val c' with
               | Some hi, Some lo => option_map (cons (16 * hi + lo)%N) (fromhex r')
               | _, _ => None
               end
           | [] => None
           end
  end.

(** [ObjectId(s)] for a string: 24 characters that [bytes.fromhex] reads. *)
Definition ObjectId (s : string) : result (list N) :=
  if (String.length s =? 24)%nat then
    match fromhex (list_ascii_of_string s) with
    | Some o => Ok o
    | None => Raise InvalidId
    end
  else Raise InvalidId.

(** The filter [{"_id": o}]. *)
Definition has_id (o : list N) (d : document) : bool :=
  match d !! "_id" with
  | Some (BOid o') => bool_decide (o' = o)
  | _ => false
  end.

(** [{"$set": fields}] applied to one document. *)
Definition set_fields (fields : list (string * bson)) (d : document) : document :=
  foldl (fun m kv => <[fst kv := snd kv]> m) d fields.

(** [update_one({"_id": o}, {"$set": fields})]: the first match is
    modified; returns [matched_count] and the collection. *)
Fixpoint update_one (o : list N) (fields : list (string * bson)) (c : collection)
  : Z * collection :=
  match c with
  | [] => (0, [])
  | d :: r =>
      if has_id o d then (1, set_fields fields d :: r)
      else let '(n, r') := update_one o fields r in (n, d :: r')
  end.

(** [delete_one({"_id": o})]: returns [deleted_count] and the collection. *)
Fixpoint delete_one (o : list N) (c : collection) : Z * collection :=
  match c with
  | [] => (0, [])
  | d :: r =>
      if has_id o d then (1, r)
      else let '(n, r') := delete_one o r in (n, d :: r')
  end.

(** *** Request models *)

Record WatchlistCreate : Type := {
  wc_user_id : string;
  wc_tmdb_id : Z;
  wc_media_type : string;
  wc_title : string;
  wc_poster : option string;
  wc_backdrop : option string;
  wc_year : option Z;
  wc_status : string;
  wc_liked : bool;
  wc_rating : option Q
}.

Record WatchlistUpdate : Type := {
  wu_status : option string;
  wu_liked : option bool;
  wu_rating : option Q
}.

(** [Literal[...]] *)
Definition literal (allowed : list string) (s : string) : bool :=
  existsb (String.eqb s) allowed.

(** [Field(None, ge=0, le=10)] *)
Definition rating_ok (r : option Q) : bool :=
  match r with
  | Some q => Qle_bool 0 q && Qle_bool q 10
  | None => true
  end.

(** The constraints declared by the class, checked on the typed fields. *)
Definition valid_WatchlistCreate (p : WatchlistCreate) : bool :=
  literal ["movie"; "tv"] (wc_media_type p)
  && literal ["later"; "watching"; "watched"] (wc_status p)
  && rating_ok (wc_rating p).

Definition valid_WatchlistUpdate (p : WatchlistUpdate) : bool :=
  match wu_status p with
  | Some s => literal ["later"; "watching"; "watched"] s
  | None => true
  end
  && rating_ok (wu_rating p).

Definition opt_bson {A : Type} (f : A -> bson) (o : option A) : bson :=
  match o with
  | Some a => f a
  | None => BNull
  end.

(** [payload.model_dump().items()] *)
Definition model_dump (p : WatchlistUpdate) : list (string * bson) :=
  [("status", opt_bson BStr (wu_status p));
   ("liked", opt_bson BBool (wu_liked p));
   ("rating", opt_bson BFloat (wu_rating p))].

Definition not_None (v : bson) : bool :=
  match v with
  | BNull => false
  | _ => true
  end.

(** [{k: v for k, v in payload.model_dump().items() if v is not None}] *)
Definition update_data (p : WatchlistUpdate) : list (string * bson) :=
  List.filter (fun kv => not_None (snd kv)) (model_dump p).

(** *** Handlers *)

(** The body of a handler: it may raise, and it may change the collection. *)
Definition handler (A : Type) : Type := collection -> result A * collection.

Definition ret {A : Type} (a : A) : handler A := fun c => (Ok a, c).
Definition raise {A : Type} (e : exn) : handler A := fun c => (Raise e, c).
Definition lift {A : Type} (r : result A) : handler A := fun c => (r, c).

Definition bindH {A B : Type} (m : handler A) (k : A -> handler B) : handler B :=
  fun c =>
    match m c with
    | (Ok a, c') => k a c'
    | (Raise e, c') => (Raise e, c')
    end.

Notation "'do!' x ':=' m 'in' k" := (bindH m (fun x => k))
  (at level 10, x name, m at level 100, k at level 200).

(** [try: body except Exception as e: raise HTTPException(500, str(e))]:
    every exception of the body is caught, an [HTTPException] too. *)
Definition try_except {A : Type} (body : handler A) : handler A :=
  fun c =>
    match body c with
    | (Ok a, c') => (Ok a, c')
    | (Raise e, c') => (Raise (HTTPException 500 (StrOf e)), c')
    end.

(** [if db is None: raise ...], then the body on the collection. *)
Definition with_db {A : Type} (db : option collection) (body : handler A)
  : result A * option collection :=
  match db with
  | None => (Raise (HTTPException 500 (Text "Database not available")), None)
  | Some c => let '(r, c') := body c in (r, Some c')
  end.

(** The JSON bodies the handlers answer with. *)
Inductive reply : Type :=
| Status (s : string)
| Inserted (id : string).

Definition update_watchlist_item (db : option collection) (utcnow : Z)
    (item_id : string) (payload : WatchlistUpdate)
  : result reply * option collection :=
  with_db db (try_except (
    match update_data payload with
    | [] => ret (Status "no-op")
    | fields =>
        let fields := fields ++ [("updated_at", BDate utcnow)] in
        do! o := lift (ObjectId item_id) in
        do! matched_count := (fun c => let '(n, c') := update_one o fields c in (Ok n, c')) in
        if matched_count =? 0
        then raise (HTTPException 404 (Text "Item not found"))
        else ret (Status "ok")
    end)).

Definition delete_watchlist_item (db : option collection) (item_id : string)
  : result reply * option collection :=
  with_db db (try_except (
    do! o := lift (ObjectId item_id) in
    do! deleted_count := (fun c => let '(n, c') := delete_one o c in (Ok n, c')) in
    if deleted_count =? 0
    then raise (HTTPException 404 (Text "Item not found"))
    else ret (Status "ok"))).

Section Create.

(** [create_document] of [database.py], which works on the global [db]:
    it may raise, and it may change the collection. *)
Variable create_document :
  option collection -> string -> WatchlistCreate ->
  result string * option collection.

Definition add_watchlist_item (db : option collection) (payload : WatchlistCreate)
  : result reply * option collection :=
  match create_document db "watchlistitem" payload with
  | (Ok inserted_id, db') => (Ok (Inserted inserted_id), db')
  | (Raise e, db') => (Raise (HTTPException 500 (StrOf e)), db')
  end.

(** [POST /api/watchlist]: the framework validates the body against
    [WatchlistCreate] and calls the handler only with a valid payload. *)
Definition post_api_watchlist (db : option collection) (body : WatchlistCreate)
  : result reply * option collection :=
  if valid_WatchlistCreate body then add_watchlist_item db body
  else (Raise RequestValidationError, db).

End Create.

(** ** Dates and numerals *)

(** The part of [s] before its first dash. *)
Fixpoint before_dash (s : string) : string :=
  match s with
  | EmptyString => EmptyString
  | String c r => if Ascii.eqb c "-"%char then EmptyString else String c (before_dash r)
  end.

(** The date [map_item] reads the year from. *)
Definition selected_date (d : dict) : json :=
  py_or (get d "release_date") (get d "first_air_date").

(** A decimal numeral and the number it denotes. *)
Definition digit_char (d : Z) : ascii := ascii_of_N (Z.to_N (48 + d)).
Definition numeral (ds : list Z) : string := string_of_list_ascii (map digit_char ds).
Definition decimal_value (ds : list Z) : Z := fold_left (fun a d => 10 * a + d) ds 0.
Definition is_digit (d : Z) : Prop := 0 <= d <= 9.

(** ** What the normalizer is expected to do *)

(** The year of the item a call returned, or the exception it raised. *)
Definition year_result (r : result CanonicalItem) : result (option Z) :=
  let! it := r in Ok (item_year it).

(** The media type as the specification words it: the explicit field when
    the record has one, else ["tv"] for a record with a ["name"] and no
    ["title"], else ["movie"]. *)
Definition media_type_as_stated (d : dict) : json :=
  match lookup_key d "media_type" with
  | Some v => v
  | None =>
      match lookup_key d "name", lookup_key d "title" with
      | Some _, None => JStr "tv"
      | _, _ => JStr "movie"
      end
  end.



(** The dates [map_item] can read a year from, or does not need to. *)
Definition date_readable (d : dict) : Prop :=
  truthy (selected_date d) = false
  \/ exists s y, selected_date d = JStr s /\ py_int (before_dash s) = Some y.

(** What the output fields are when their key is missing from the record:
    null, except the media type, which is then inferred from the name. *)
Definition defaults_where_missing (d : dict) (it : CanonicalItem) : Prop :=
  (lookup_key d "id" = None -> item_id it = JNull)
  /\ (lookup_key d "media_type" = None ->
      item_media_type it = if truthy (get d "name") then JStr "tv" else JStr "movie")
  /\ (lookup_key d "title" = None -> lookup_key d "name" = None -> item_title it = JNull)
  /\ (lookup_key d "overview" = None -> item_overview it = JNull)
  /\ (lookup_key d "poster_path" = None -> item_poster it = None)
  /\ (lookup_key d "backdrop_path" = None -> item_backdrop it = None)
  /\ (lookup_key d "vote_average" = None -> item_rating it = JNull)
  /\ (lookup_key d "vote_count" = None -> item_votes it = JNull)
  /\ (truthy (selected_date d) = false -> item_year it = None).


Definition numeric_date_record : dict :=
  [("id", JInt 6); ("title", JStr "Metropolis"); ("release_date", JInt 1927)].

Definition dune_record : dict :=
  [("id", JInt 1); ("title", JStr "Dune"); ("name", JStr "Dune")].

Definition dune_item : CanonicalItem :=
  {| item_id := JInt 1; item_media_type := JStr "tv"; item_title := JStr "Dune";
     item_overview := JNull; item_poster := None; item_backdrop := None;
     item_rating := JNull; item_votes := JNull; item_year := None |}.

Definition unreleased_record : dict :=
  [("id", JInt 2); ("title", JStr "Untitled"); ("release_date", JStr "soon-01-01")].

Definition dated_record : dict :=
  [("id", JInt 3); ("title", JStr "Tenet"); ("release_date", JStr "2020-05-01")].

(** ** What the proxy endpoints are expected to do *)

Definition is_object (v : json) : bool :=
  match v with
  | JObj _ => true
  | _ => false
  end.

(** A video that can serve as the trailer: hosted on YouTube, of type
    Trailer or Teaser. *)
Definition qualifies (v : json) : bool :=
  match v with
  | JObj e =>
      eq_str (get e "site") "YouTube"
      && (eq_str (get e "type") "Trailer" || eq_str (get e "type") "Teaser")
  | _ => false
  end.

(** The first video of the list that qualifies, in upstream order. *)
Inductive first_qualifying : list json -> option json -> Prop :=
| fq_none (vs : list json) :
    Forall (fun v => qualifies v = false) vs ->
    first_qualifying vs None
| fq_some (pre : list json) (v : json) (post : list json) :
    Forall (fun v => qualifies v = false) pre ->
    qualifies v = true ->
    first_qualifying (pre ++ v :: post) (Some v).

(** [yt.get("key")] of the chosen video, null when there is none. *)
Definition key_of (yt : option json) : json :=
  match yt with
  | Some (JObj e) => get e "key"
  | _ => JNull
  end.

Definition movie_or_tv_value (v : json) : Prop := v = JStr "movie" \/ v = JStr "tv".

(** A trending answer that lists a person, as the provider's "all" feed does. *)
Definition trending_with_person : response :=
  {| resp_status_code := 200;
     resp_text := EmptyString;
     resp_json := Ok (JObj [("page", JInt 1);
                            ("results", JArr [JObj [("id", JInt 500);
                                                    ("media_type", JStr "person");
                                                    ("name", JStr "Tilda Swinton")]])]) |}.

Definition person_item : CanonicalItem :=
  {| item_id := JInt 500; item_media_type := JStr "person";
     item_title := JStr "Tilda Swinton"; item_overview := JNull;
     item_poster := None; item_backdrop := None;
     item_rating := JNull; item_votes := JNull; item_year := None |}.

(** The videos of the specification's trailer example, and a detail answer
    that carries them. *)
Definition the_clip : json :=
  JObj [("site", JStr "YouTube"); ("type", JStr "Clip"); ("key", JStr "zzz")].
Definition the_trailer : json :=
  JObj [("site", JStr "YouTube"); ("type", JStr "Trailer"); ("key", JStr "abc")].

Definition clip_then_trailer : dict :=
  [("id", JInt 3); ("title", JStr "Tenet");
   ("videos", JObj [("results", JArr [the_clip; the_trailer])])].

Definition detail_response : response :=
  {| resp_status_code := 200; resp_text := EmptyString;
     resp_json := Ok (JObj clip_then_trailer) |}.

(** ** What the watchlist is expected to do *)

(** The payload provides at least one of its fields. *)
Definition provides_fields (p : WatchlistUpdate) : bool :=
  match wu_status p, wu_liked p, wu_rating p with
  | None, None, None => false
  | _, _, _ => true
  end.

(** No stored document has the identifier [item_id]: either it is no
    object identifier at all, or no document carries it. *)
Definition matches_none (item_id : string) (c : collection) : Prop :=
  forall o, ObjectId item_id = Ok o -> Forall (fun d => has_id o d = false) c.

(** Document [d] at position [i] is the one the filter [{"_id": o}] finds. *)
Definition first_match (o : list N) (c : collection) (i : nat) (d : document) : Prop :=
  c !! i = Some d
  /\ has_id o d = true
  /\ forall j d', (j < i)%nat -> c !! j = Some d' -> has_id o d' = false.

(** The fields an update may write. *)
Definition mutable_fields : list string := ["status"; "liked"; "rating"; "updated_at"].

(** What a client gets when the target of an update or a delete is not
    there: the 404 of the handler, wrapped into a 500 by its own [except]. *)
Definition not_found_as_500 : exn :=
  HTTPException 500 (StrOf (HTTPException 404 (Text "Item not found"))).

Definition status_of (e : exn) : option Z :=
  match e with
  | HTTPException s _ => Some s
  | _ => None
  end.

Definition opt_str (o : option string) : bson := opt_bson BStr o.

(** Modelled from the spec: [create_document] of [database.py], which is
    not among the sources: "assign identifier + created_at; insert; return
    new identifier", and a failure when the store is not there.  The new
    identifier and the time are arguments. *)
Definition create_document_model (new_id : string) (now : Z)
    (db : option collection) (name : string) (p : WatchlistCreate)
  : result string * option collection :=
  match db with
  | None => (Raise (StoreError "Database not available"), None)
  | Some c =>
      match ObjectId new_id with
      | Ok o =>
          let doc : document :=
            list_to_map
              [("_id", BOid o); ("user_id", BStr (wc_user_id p));
               ("tmdb_id", BInt (wc_tmdb_id p));
               ("media_type", BStr (wc_media_type p));
               ("title", BStr (wc_title p));
               ("poster", opt_str (wc_poster p));
               ("backdrop", opt_str (wc_backdrop p));
               ("year", opt_bson BInt (wc_year p));
               ("status", BStr (wc_status p));
               ("liked", BBool (wc_liked p));
               ("rating", opt_bson BFloat (wc_rating p));
               ("created_at", BDate now)] in
          (Ok new_id, Some (c ++ [doc]))
      | Raise e => (Raise e, Some c)
      end
  end.

(** A stored item and two identifiers, one of them unused. *)
Definition stored_id : string := "65f000000000000000000001".
Definition unused_id : string := "000000000000000000000000".

Definition stored_doc : document :=
  list_to_map
    [("_id", BOid [101; 240; 0; 0; 0; 0; 0; 0; 0; 0; 0; 1]%N);
     ("user_id", BStr "u1"); ("tmdb_id", BInt 438631);
     ("media_type", BStr "movie"); ("title", BStr "Dune");
     ("year", BInt 2021); ("status", BStr "later"); ("liked", BBool false);
     ("rating", BNull); ("created_at", BDate 1000)].

Definition no_update : WatchlistUpdate :=
  {| wu_status := None; wu_liked := None; wu_rating := None |}.

Definition mark_watched : WatchlistUpdate :=
  {| wu_status := Some "watched"; wu_liked := None; wu_rating := None |}.

Definition overrated : WatchlistCreate :=
  {| wc_user_id := "u1"; wc_tmdb_id := 438631; wc_media_type := "movie";
     wc_title := "Dune"; wc_poster := None; wc_backdrop := None;
     wc_year := Some 2021; wc_status := "later"; wc_liked := false;
     wc_rating := Some (11 # 1) |}.

(** ** The other list endpoints *)

Definition top_rated_movies (TMDB_API_KEY : option string) (r : response)
  : result (list CanonicalItem) :=
  let! data := tmdb_get TMDB_API_KEY r in
  let! xs := results_of data in
  mapM map_item xs.

Definition popular_tv (TMDB_API_KEY : option string) (r : response)
  : result (list CanonicalItem) :=
  let! data := tmdb_get TMDB_API_KEY r in
  let! xs := results_of data in
  mapM map_item xs.

Definition upcoming_movies (TMDB_API_KEY : option string) (r : response)
  : result (list CanonicalItem) :=
  let! data := tmdb_get TMDB_API_KEY r in
  let! xs := results_of data in
  mapM map_item xs.

(** ** Listing the watchlist *)

(** [str(oid)]: two lower-case hexadecimal digits for every byte. *)
Definition hex_digit (n : N) : ascii :=
  if (n <? 10)%N then ascii_of_N (48 + n) else ascii_of_N (87 + n).

Fixpoint hexlify (o : list N) : string :=
  match o with
  | [] => EmptyString
  | b :: r => String (hex_digit (b / 16)) (String (hex_digit (b mod 16)) (hexlify r))
  end.

(** A value of a listed document: as stored, or [str(v)] of a stored value,
    kept unrendered. *)
Inductive listed : Type :=
| Stored (v : bson)
| StrOfValue (v : bson).

(** The text of a listed value, where the model renders it: a string as it
    is, and [str] of an object identifier or of a string. *)
Definition listed_text (v : listed) : option string :=
  match v with
  | Stored (BStr s) => Some s
  | StrOfValue (BOid o) => Some (hexlify o)
  | StrOfValue (BStr s) => Some s
  | _ => None
  end.

(** One condition [{k: v}] of a filter, for a string [v]. *)
Definition matches_field (d : document) (kv : string * string) : bool :=
  match d !! fst kv with
  | Some (BStr s) => String.eqb s (snd kv)
  | _ => false
  end.

(** [find(filt)], in natural order. *)
Definition find (filt : list (string * string)) (c : collection) : list document :=
  List.filter (fun d => forallb (matches_field d) filt) c.

(** [d["_id"] = str(d["_id"])] on the copy of the document the cursor gave. *)
Definition stringify_id (d : document) : result (gmap string listed) :=
  match d !! "_id" with
  | Some v => Ok (<["_id" := StrOfValue v]> (Stored <$> d))
  | None => Raise KeyError
  end.

(** The filter [get_watchlist] builds: the status only when it is given
    and not empty. *)
Definition watchlist_filter (user_id : string) (status : option string)
  : list (string * string) :=
  ("user_id", user_id)
  :: match status with
     | Some (String c s) => [("status", String c s)]
     | _ => []
     end.

Section Listing.

(** [cursor.sort(key, direction)], which the server performs: the order
    among equal keys is its own. *)
Variable sort : string -> Z -> list document -> list document.

Definition get_watchlist (db : option collection) (user_id : string)
    (status : option string) : result (list (gmap string listed)) :=
  match db with
  | None => Raise (HTTPException 500 (Text "Database not available"))
  | Some c =>
      let docs := sort "created_at" (-1) (find (watchlist_filter user_id status) c) in
      mapM stringify_id docs
  end.

End Listing.

(** A sort of the documents by the date under [k], latest first; documents
    without a date there come last. *)
Definition date_key (k : string) (d : document) : Z :=
  match d !! k with
  | Some (BDate t) => t
  | _ => -1
  end.

Fixpoint insert_desc (k : string) (d : document) (l : list document) : list document :=
  match l with
  | [] => [d]
  | d' :: r =>
      if date_key k d' <? date_key k d then d :: l else d' :: insert_desc k d r
  end.

Definition sort_dates (k : string) (direction : Z) (l : list document) : list document :=
  let sorted := fold_right (insert_desc k) [] l in
  if direction <? 0 then sorted else rev sorted.

(** ** Notions for the further statements *)

(** The upstream results whose explicit media type is movie or tv. *)
Definition explicit_movie_or_tv (x : json) : bool :=
  match x with
  | JObj d => eq_str (get d "media_type") "movie" || eq_str (get d "media_type") "tv"
  | _ => false
  end.

(** A well-formed object identifier: twelve bytes. *)
Definition twelve_bytes (o : list N) : Prop :=
  length o = 12%nat /\ Forall (fun b => (b < 256)%N) o.

(** No document other than the one at position [i] has the identifier. *)
Definition only_match (o : list N) (c : collection) (i : nat) : Prop :=
  forall j d, c !! j = Some d -> has_id o d = true -> j = i.

(** The value a field has after [$set] with the update of [p]. *)
Definition written (p : WatchlistUpdate) (k : string) : option bson :=
  if String.eqb k "status" then option_map BStr (wu_status p)
  else if String.eqb k "liked" then option_map BBool (wu_liked p)
  else if String.eqb k "rating" then option_map BFloat (wu_rating p)
  else None.

(** ** Samples and notions of the further statements *)

(** A character that can occur in a literal [int] accepts. *)
Definition int_char (c : ascii) : bool :=
  is_space c
  || match digit_val c with Some _ => true | None => false end
  || Ascii.eqb c "_"%char || Ascii.eqb c "+"%char || Ascii.eqb c "-"%char.

Definition text_of (f : option fstring) : option string :=
  match f with
  | Some f => render f
  | None => None
  end.

(** The four endpoints that map a list of upstream results as it is. *)
Inductive list_endpoint : Type := Trending | TopRated | PopularTv | Upcoming.

Definition run_list (e : list_endpoint) : option string -> response -> result (list CanonicalItem) :=
  match e with
  | Trending => trending
  | TopRated => top_rated_movies
  | PopularTv => popular_tv
  | Upcoming => upcoming_movies
  end.

Definition no_key (key : option string) : Prop := key = None \/ key = Some EmptyString.

Definition key_missing : exn :=
  HTTPException 500 (Text "TMDB_API_KEY is not set in environment").

Definition upstream_failed (r : response) : Prop :=
  400 <= resp_status_code r < 600.

(** A search answer with a movie, a person and a show that carries no
    media type. *)
Definition mixed_results : response :=
  {| resp_status_code := 200; resp_text := EmptyString;
     resp_json := Ok (JObj [("results",
       JArr [JObj [("id", JInt 11); ("media_type", JStr "movie"); ("title", JStr "Alien")];
             JObj [("id", JInt 500); ("media_type", JStr "person"); ("name", JStr "Tilda Swinton")];
             JObj [("id", JInt 12); ("name", JStr "Dark")]])]) |}.

Definition alien_item : CanonicalItem :=
  {| item_id := JInt 11; item_media_type := JStr "movie";
     item_title := JStr "Alien"; item_overview := JNull;
     item_poster := None; item_backdrop := None;
     item_rating := JNull; item_votes := JNull; item_year := None |}.

Definition bad_gateway : response :=
  {| resp_status_code := 502; resp_text := "upstream down"; resp_json := Raise ValueError |}.

Definition one_bad_date_body : json :=
  JObj [("results", JArr [JObj dune_record; JObj unreleased_record; JObj dated_record])].

Definition one_bad_date : response :=
  {| resp_status_code := 200; resp_text := EmptyString;
     resp_json := Ok one_bad_date_body |}.

Definition no_results : response :=
  {| resp_status_code := 200; resp_text := EmptyString;
     resp_json := Ok (JObj [("status_message", JStr "nothing here")]) |}.

Definition mixed_results_list : list json :=
  [JObj [("id", JInt 11); ("media_type", JStr "movie"); ("title", JStr "Alien")];
   JObj [("id", JInt 500); ("media_type", JStr "person"); ("name", JStr "Tilda Swinton")];
   JObj [("id", JInt 12); ("name", JStr "Dark")]].

(** A detail answer with eleven cast members, the last of them malformed. *)
Definition actor (n : Z) : json :=
  JObj [("id", JInt n); ("name", JStr "actor"); ("character", JStr "role")].

Definition member (n : Z) : CastMember :=
  {| cast_id := JInt n; cast_name := JStr "actor"; cast_character := JStr "role";
     cast_profile := None |}.

Definition eleven_cast : list json :=
  [actor 1; actor 2; actor 3; actor 4; actor 5; actor 6; actor 7; actor 8;
   actor 9; actor 10; JStr "and many more"].

Definition big_cast : dict :=
  [("id", JInt 5); ("name", JStr "Dark"); ("first_air_date", JStr "2017-12-01");
   ("genres", JArr [JObj [("id", JInt 18); ("name", JStr "Drama")];
                    JObj [("id", JInt 9648); ("name", JStr "Mystery")]]);
   ("runtime", JInt 0); ("episode_run_time", JArr [JInt 60; JInt 45]);
   ("credits", JObj [("cast", JArr eleven_cast)])].

Definition big_cast_response : response :=
  {| resp_status_code := 200; resp_text := EmptyString; resp_json := Ok (JObj big_cast) |}.

Definition big_cast_detail : CanonicalItemDetail :=
  {| detail_item :=
       {| item_id := JInt 5; item_media_type := JStr "tv"; item_title := JStr "Dark";
          item_overview := JNull; item_poster := None; item_backdrop := None;
          item_rating := JNull; item_votes := JNull; item_year := Some 2017 |};
     detail_genres := [JStr "Drama"; JStr "Mystery"];
     detail_runtime := JInt 60;
     detail_release_date := JStr "2017-12-01";
     detail_tagline := JNull;
     detail_cast := [member 1; member 2; member 3; member 4; member 5; member 6;
                     member 7; member 8; member 9; member 10];
     detail_trailer_key := JNull |}.

Definition runtime_as_number_body : dict :=
  [("id", JInt 5); ("name", JStr "Dark"); ("episode_run_time", JInt 60)].

Definition runtime_as_number : response :=
  {| resp_status_code := 200; resp_text := EmptyString;
     resp_json := Ok (JObj runtime_as_number_body) |}.

Definition trailer_then_junk : dict :=
  [("id", JInt 3); ("title", JStr "Tenet");
   ("videos", JObj [("results", JArr [the_clip; the_trailer; JInt 0; JNull])])].

Definition videos_null : response :=
  {| resp_status_code := 200; resp_text := EmptyString;
     resp_json := Ok (JObj [("id", JInt 3); ("title", JStr "Tenet"); ("videos", JNull)]) |}.

Definition rate_it : WatchlistUpdate :=
  {| wu_status := None; wu_liked := Some true; wu_rating := Some (8 # 1) |}.

Definition status_wanted (status : option string) (v : option bson) : Prop :=
  match status with
  | Some (String c s) => v = Some (BStr (String c s))
  | _ => True
  end.

Definition other_doc : document :=
  list_to_map
    [("_id", BOid [101; 240; 0; 0; 0; 0; 0; 0; 0; 0; 0; 2]%N);
     ("user_id", BStr "u2"); ("tmdb_id", BInt 603);
     ("media_type", BStr "movie"); ("title", BStr "The Matrix");
     ("status", BStr "watched"); ("liked", BBool true);
     ("rating", BNull); ("created_at", BDate 1500)].

Definition listed_stored_doc : gmap string listed :=
  <["_id" := StrOfValue (BOid [101; 240; 0; 0; 0; 0; 0; 0; 0; 0; 0; 1]%N)]>
    (Stored <$> stored_doc).

(** * Proofs *)

(** ** The normalizer on a sample record *)

Example map_item_movie :
  map_item (JObj [("id", JInt 7); ("title", JStr "Heat");
                  ("release_date", JStr "1995-12-15");
                  ("poster_path", JStr "/h.jpg")])
  = Ok {| item_id := JInt 7; item_media_type := JStr "movie";
          item_title := JStr "Heat"; item_overview := JNull;
          item_poster := Some (Fmt IMG_W500 (JStr "/h.jpg"));
          item_backdrop := None; item_rating := JNull; item_votes := JNull;
          item_year := Some 1995 |}.
Proof. reflexivity. Qed.

(** ** Facts about reading the year *)

Lemma hd_py_split (s : string) :
  hd EmptyString (py_split "-"%char s) = before_dash s.
Proof.
  induction s as [|c r IH]; simpl; [reflexivity|].
  destruct (Ascii.eqb c "-"%char); [reflexivity|].
  destruct (py_split "-"%char r) as [|seg segs]; simpl in *; congruence.
Qed.

Lemma digit_char_cases (d : Z) :
  is_digit d ->
  is_space (digit_char d) = false
  /\ Ascii.eqb (digit_char d) "_"%char = false
  /\ Ascii.eqb (digit_char d) "+"%char = false
  /\ Ascii.eqb (digit_char d) "-"%char = false
  /\ digit_val (digit_char d) = Some d.
Proof.
  intros [H0 H9].
  assert (Hd : d = 0 \/ d = 1 \/ d = 2 \/ d = 3 \/ d = 4 \/ d = 5 \/ d = 6
               \/ d = 7 \/ d = 8 \/ d = 9) by lia.
  repeat (destruct Hd as [-> | Hd]; [repeat split; reflexivity|]).
  subst d; repeat split; reflexivity.
Qed.

Lemma lstrip_head (c : ascii) (r : list ascii) :
  is_space c = false -> lstrip (c :: r) = c :: r.
Proof. intros H; simpl; rewrite H; reflexivity. Qed.

Lemma strip_digits (ds : list Z) :
  Forall is_digit ds -> strip (map digit_char ds) = map digit_char ds.
Proof.
  intros Hds. unfold strip.
  assert (Hl : forall l, Forall is_digit l -> lstrip (map digit_char l) = map digit_char l).
  { intros [|d l] Hf; [reflexivity|]. simpl map. apply lstrip_head.
    inversion Hf; subst. apply digit_char_cases; assumption. }
  rewrite (Hl ds Hds), <- map_rev, Hl, map_rev, rev_involutive.
  - reflexivity.
  - apply Forall_rev; assumption.
Qed.

Lemma scan_digits_numeral (ds : list Z) :
  Forall is_digit ds ->
  forall acc n,
    scan_digits (map digit_char ds) false acc n
    = Some (fold_left (fun a d => 10 * a + d) ds acc, (n + length ds)%nat).
Proof.
  induction 1 as [|d ds Hd Hds IH]; intros acc n; simpl.
  - rewrite Nat.add_0_r; reflexivity.
  - destruct (digit_char_cases d Hd) as (_ & Hus & _ & _ & Hv).
    rewrite Hus, Hv, IH. do 2 f_equal. lia.
Qed.

Lemma unsigned_int_numeral (ds : list Z) :
  ds <> [] -> Forall is_digit ds -> (length ds <= int_max_str_digits)%nat ->
  unsigned_int (map digit_char ds) = Some (decimal_value ds).
Proof.
  intros Hne Hds Hlen. destruct ds as [|d ds]; [congruence|].
  inversion Hds as [|? ? Hd Hds']; subst.
  destruct (digit_char_cases d Hd) as (_ & Hus & _ & _ & Hv).
  unfold unsigned_int, decimal_value. simpl scan_digits.
  rewrite Hus, Hv, scan_digits_numeral by assumption.
  simpl in Hlen. apply Nat.leb_le in Hlen. simpl "+"%nat.
  rewrite Hlen. reflexivity.
Qed.

(** [int] reads a decimal numeral as the number it denotes. *)
Lemma py_int_numeral (ds : list Z) :
  ds <> [] -> Forall is_digit ds -> (length ds <= int_max_str_digits)%nat ->
  py_int (numeral ds) = Some (decimal_value ds).
Proof.
  intros Hne Hds Hlen. unfold py_int, numeral.
  rewrite list_ascii_of_string_of_list_ascii, strip_digits by assumption.
  rewrite <- (unsigned_int_numeral ds Hne Hds Hlen).
  destruct ds as [|d ds]; [congruence|].
  inversion Hds as [|? ? Hd _]; subst.
  destruct (digit_char_cases d Hd) as (_ & _ & Hp & Hm & _).
  change (map digit_char (d :: ds)) with (digit_char d :: map digit_char ds).
  cbv beta iota. rewrite Hp, Hm. reflexivity.
Qed.

Lemma year_of_falsy (date : json) :
  truthy date = false -> year_of date = Ok None.
Proof. intros H; unfold year_of; rewrite H; reflexivity. Qed.

Lemma year_of_string (s : string) :
  s <> EmptyString ->
  year_of (JStr s) = match py_int (before_dash s) with
                     | Some y => Ok (Some y)
                     | None => Raise ValueError
                     end.
Proof.
  intros Hs. unfold year_of. rewrite hd_py_split.
  destruct s; [congruence | reflexivity].
Qed.

(** [map_item] on an object is the year computation followed by the record. *)
Lemma map_item_year (d : dict) :
  map_item (JObj d)
  = let! year := year_of (selected_date d) in
    Ok {| item_id := get d "id";
          item_media_type :=
            py_or (get d "media_type")
                  (if truthy (get d "name") then JStr "tv" else JStr "movie");
          item_title := py_or (get d "title") (get d "name");
          item_overview := get d "overview";
          item_poster := image IMG_W500 d "poster_path";
          item_backdrop := image IMG_ORIGINAL d "backdrop_path";
          item_rating := get d "vote_average";
          item_votes := get d "vote_count";
          item_year := year |}.
Proof. reflexivity. Qed.

Lemma get_missing (d : dict) (k : string) :
  lookup_key d k = None -> get d k = JNull.
Proof. intros H; unfold get, get_default; rewrite H; reflexivity. Qed.

Lemma In_lstrip (c : ascii) (l : list ascii) :
  In c l -> is_space c = false -> In c (lstrip l).
Proof.
  induction l as [|a l IH]; simpl; [tauto|].
  intros [-> | H] Hc.
  - rewrite Hc. left; reflexivity.
  - destruct (is_space a); [apply IH; assumption | right; assumption].
Qed.

Lemma In_strip (c : ascii) (l : list ascii) :
  In c l -> is_space c = false -> In c (strip l).
Proof.
  intros H Hc. unfold strip. apply in_rev.
  rewrite rev_involutive. apply In_lstrip; [|assumption].
  apply -> in_rev. apply In_lstrip; assumption.
Qed.

Lemma scan_digits_bad_char (c : ascii) (l : list ascii) :
  In c l -> Ascii.eqb c "_"%char = false -> digit_val c = None ->
  forall b acc n, scan_digits l b acc n = None.
Proof.
  intros H Hu Hd. induction l as [|a l IH]; [destruct H|].
  intros b acc n. simpl. destruct H as [-> | H].
  - rewrite Hu, Hd. reflexivity.
  - destruct (Ascii.eqb a "_"%char).
    + destruct b; [reflexivity | apply IH; assumption].
    + destruct (digit_val a); [apply IH; assumption | reflexivity].
Qed.

Lemma unsigned_int_bad_char (c : ascii) (l : list ascii) :
  In c l -> Ascii.eqb c "_"%char = false -> digit_val c = None ->
  unsigned_int l = None.
Proof.
  intros H Hu Hd. unfold unsigned_int.
  rewrite (scan_digits_bad_char c l H Hu Hd). reflexivity.
Qed.

Lemma py_int_bad_char (c : ascii) (s : string) :
  In c (list_ascii_of_string s) -> int_char c = false -> py_int s = None.
Proof.
  unfold int_char. intros H Hc.
  apply orb_false_iff in Hc as [Hc Hm]. apply orb_false_iff in Hc as [Hc Hp].
  apply orb_false_iff in Hc as [Hc Hu]. apply orb_false_iff in Hc as [Hsp Hd].
  assert (Hdv : digit_val c = None) by (destruct (digit_val c); [discriminate | reflexivity]).
  pose proof (In_strip c _ H Hsp) as Hin. unfold py_int.
  destruct (strip (list_ascii_of_string s)) as [|a r]; [reflexivity|].
  destruct (Ascii.eqb a "+"%char) eqn:Ha; [|destruct (Ascii.eqb a "-"%char) eqn:Hb].
  - destruct Hin as [-> | Hin]; [congruence|].
    apply (unsigned_int_bad_char c); assumption.
  - destruct Hin as [-> | Hin]; [congruence|].
    rewrite (unsigned_int_bad_char c r Hin Hu Hdv). reflexivity.
  - apply (unsigned_int_bad_char c); assumption.
Qed.

(** ** Statements about the normalizer *)

Lemma year_result_map_item (d : dict) :
  year_result (map_item (JObj d)) = year_of (selected_date d).
Proof.
  rewrite map_item_year. destruct (year_of (selected_date d)); reflexivity.
Qed.

Lemma map_item_returns (d : dict) (it : CanonicalItem) :
  map_item (JObj d) = Ok it ->
  year_of (selected_date d) = Ok (item_year it)
  /\ item_media_type it
     = py_or (get d "media_type")
             (if truthy (get d "name") then JStr "tv" else JStr "movie")
  /\ item_title it = py_or (get d "title") (get d "name")
  /\ item_id it = get d "id" /\ item_overview it = get d "overview"
  /\ item_poster it = image IMG_W500 d "poster_path"
  /\ item_backdrop it = image IMG_ORIGINAL d "backdrop_path"
  /\ item_rating it = get d "vote_average" /\ item_votes it = get d "vote_count".
Proof.
  rewrite map_item_year. destruct (year_of (selected_date d)) as [y|e]; simpl.
  - intros [= <-]. simpl. repeat split; reflexivity.
  - discriminate.
Qed.

(** C1, as stated, fails: a record with both a ["name"] and a ["title"]
    and no explicit media type is mapped to ["tv"], where the stated rule
    gives ["movie"]. *)
Lemma C1_name_and_title_counterexample :
  exists it,
    map_item (JObj dune_record) = Ok it
    /\ item_media_type it = JStr "tv"
    /\ media_type_as_stated dune_record = JStr "movie".
Proof. eexists. repeat split. Qed.

(** C1, amended: the output media type of [map_item] is the record's
    ["media_type"] when that value is true in Python's sense (present,
    not null, not empty); otherwise it is ["tv"] when the record's
    ["name"] is true in that sense, whether or not it has a ["title"];
    in every other case it is ["movie"]. *)
Theorem C1_media_type_resolution (d : dict) (it : CanonicalItem) :
  map_item (JObj d) = Ok it ->
  (truthy (get d "media_type") = true
   /\ item_media_type it = get d "media_type")
  \/ (truthy (get d "media_type") = false /\ truthy (get d "name") = true
      /\ item_media_type it = JStr "tv")
  \/ (truthy (get d "media_type") = false /\ truthy (get d "name") = false
      /\ item_media_type it = JStr "movie").
Proof.
  intros H. apply map_item_returns in H as (_ & Hmt & _).
  rewrite Hmt. unfold py_or.
  destruct (truthy (get d "media_type")); [left; split; reflexivity|].
  destruct (truthy (get d "name")); [right; left | right; right];
    repeat split; reflexivity.
Qed.

Lemma C1_media_type_resolution_witness :
  map_item (JObj dune_record) = Ok dune_item
  /\ truthy (get dune_record "media_type") = false
  /\ truthy (get dune_record "name") = true
  /\ item_media_type dune_item = JStr "tv".
Proof.
  split; [reflexivity|].
  destruct (C1_media_type_resolution dune_record dune_item eq_refl)
    as [[H _] | [(H1 & H2 & H3) | (_ & H & _)]].
  - discriminate H.
  - repeat split; assumption.
  - discriminate H.
Defined.

(** A date whose first segment is a numeral gives the numeral to [int]. *)
Lemma before_dash_numeral (ds : list Z) (rest : string) :
  Forall is_digit ds ->
  before_dash (String.append (numeral ds) (String "-" rest)) = numeral ds.
Proof.
  unfold numeral. induction 1 as [|d ds Hd Hds IH]; simpl.
  - reflexivity.
  - destruct (digit_char_cases d Hd) as (_ & _ & _ & Hm & _).
    rewrite Hm, IH. reflexivity.
Qed.

Lemma selected_date_release (d : dict) (s : string) :
  get d "release_date" = JStr s -> s <> EmptyString -> selected_date d = JStr s.
Proof.
  intros H Hs. unfold selected_date, py_or. rewrite H.
  destruct s; [congruence | reflexivity].
Qed.

Lemma selected_date_first_air (d : dict) :
  truthy (get d "release_date") = false ->
  selected_date d = get d "first_air_date".
Proof. intros H. unfold selected_date, py_or. rewrite H. reflexivity. Qed.

(** C3, as stated, fails: a record whose date is present and whose first
    dash-segment is no integer makes [map_item] raise [ValueError]; there
    is no item, and no null year. *)
Lemma C3_malformed_date_counterexample :
  map_item (JObj unreleased_record) = Raise ValueError.
Proof. reflexivity. Qed.

Lemma year_of_truthy (v : json) :
  truthy v = true ->
  year_of v = match v with
              | JStr s =>
                  match py_int (before_dash s) with
                  | Some y => Ok (Some y)
                  | None => Raise ValueError
                  end
              | _ => Raise AttributeError
              end.
Proof.
  intros H. unfold year_of. rewrite H.
  destruct v; try reflexivity. rewrite hd_py_split. reflexivity.
Qed.

(** C3, amended: on a record that is an object, [map_item] returns exactly
    when the date it selects is false in Python's sense (missing, null,
    empty, zero) or is a string whose first dash-segment [int] accepts.
    When it returns, a field whose key is missing is null, except the media
    type, which is then ["tv"] for a true name and ["movie"] otherwise, and
    the year is null when the date is false in that sense.  A non-empty date
    string whose first dash-segment [int] rejects raises [ValueError], and a
    true date that is no string raises [AttributeError]. *)
Theorem C3_returns_unless_date_unreadable (d : dict) :
  (returns (map_item (JObj d)) <-> date_readable d)
  /\ (forall it, map_item (JObj d) = Ok it -> defaults_where_missing d it)
  /\ (forall s, selected_date d = JStr s -> s <> EmptyString ->
      py_int (before_dash s) = None -> map_item (JObj d) = Raise ValueError)
  /\ (truthy (selected_date d) = true ->
      (forall s, selected_date d <> JStr s) ->
      map_item (JObj d) = Raise AttributeError).
Proof.
  split; [split|split; [|split]].
  - intros [it H]. apply map_item_returns in H as (Hy & _).
    unfold date_readable. destruct (truthy (selected_date d)) eqn:Ht; [right | left; reflexivity].
    rewrite (year_of_truthy _ Ht) in Hy.
    destruct (selected_date d) as [| | | |s| |]; try discriminate Hy.
    destruct (py_int (before_dash s)) as [y|] eqn:Hp; [|discriminate Hy].
    exists s, y. split; [reflexivity | assumption].
  - intros Hr. unfold returns. rewrite map_item_year.
    destruct Hr as [Hf | (s & y & Hs & Hp)].
    + rewrite (year_of_falsy _ Hf). eexists; reflexivity.
    + rewrite Hs. destruct s as [|c s].
      * eexists; reflexivity.
      * rewrite year_of_string by discriminate. rewrite Hp. eexists; reflexivity.
  - intros it H. apply map_item_returns in H
      as (Hy & Hm & Ht & Hi & Ho & Hp & Hb & Hr & Hv).
    unfold defaults_where_missing, image in *.
    rewrite Hm, Ht, Hi, Ho, Hp, Hb, Hr, Hv.
    repeat split; intros; unfold py_or; rewrite ?get_missing by assumption;
      try reflexivity.
    rewrite year_of_falsy in Hy by assumption. congruence.
  - intros s Hs Hne Hp. rewrite map_item_year, Hs, year_of_string, Hp by assumption.
    reflexivity.
  - intros Ht Hns. rewrite map_item_year, (year_of_truthy _ Ht).
    destruct (selected_date d) as [| | | |s| |]; try reflexivity.
    destruct (Hns s eq_refl).
Qed.

Lemma C3_returns_unless_date_unreadable_witness :
  returns (map_item (JObj dune_record))
  /\ defaults_where_missing dune_record dune_item
  /\ map_item (JObj unreleased_record) = Raise ValueError
  /\ map_item (JObj numeric_date_record) = Raise AttributeError.
Proof.
  split; [|split; [|split]].
  - apply (proj1 (C3_returns_unless_date_unreadable dune_record)).
    left. reflexivity.
  - apply (proj1 (proj2 (C3_returns_unless_date_unreadable dune_record))).
    reflexivity.
  - apply (proj1 (proj2 (proj2 (C3_returns_unless_date_unreadable unreleased_record)))
             "soon-01-01"); [reflexivity | discriminate | reflexivity].
  - apply (proj2 (proj2 (proj2 (C3_returns_unless_date_unreadable numeric_date_record))));
      [reflexivity | discriminate].
Defined.






(** ** Statements about the proxy endpoints *)

Lemma eq_str_true (v : json) (s : string) : eq_str v s = true -> v = JStr s.
Proof.
  destruct v; simpl; try discriminate.
  intros H. apply String.eqb_eq in H. congruence.
Qed.

Lemma mapM_Forall2 {A B : Type} (f : A -> result B) (l : list A) (l' : list B) :
  mapM f l = Ok l' -> Forall2 (fun a b => f a = Ok b) l l'.
Proof.
  revert l'. induction l as [|a l IH]; simpl; intros l' H.
  - injection H as <-. constructor.
  - destruct (f a) as [b|e] eqn:Hf; [|discriminate H]. simpl in H.
    destruct (mapM f l) as [bs|e]; [|discriminate H]. simpl in H.
    injection H as <-. constructor; [assumption | apply IH; reflexivity].
Qed.

Lemma filterM_Forall {A : Type} (p : A -> result bool) (l l' : list A) :
  filterM p l = Ok l' -> Forall (fun a => p a = Ok true) l'.
Proof.
  revert l'. induction l as [|a l IH]; simpl; intros l' H.
  - injection H as <-. constructor.
  - destruct (p a) as [keep|e] eqn:Hp; [|discriminate H]. simpl in H.
    destruct (filterM p l) as [r'|e]; [|discriminate H]. simpl in H.
    injection H as <-. destruct keep.
    + constructor; [assumption | apply IH; reflexivity].
    + apply IH; reflexivity.
Qed.

Lemma map_item_movie_or_tv (x : json) (it : CanonicalItem) :
  movie_or_tv x = Ok true -> map_item x = Ok it ->
  movie_or_tv_value (item_media_type it).
Proof.
  destruct x as [| | | | | |d]; try discriminate.
  unfold movie_or_tv; simpl. fold (get d "media_type").
  intros [= Hm] Hi. apply map_item_returns in Hi as (_ & Hmt & _).
  rewrite Hmt. unfold py_or, movie_or_tv_value.
  apply orb_true_iff in Hm as [Hm | Hm]; apply eq_str_true in Hm;
    rewrite Hm; simpl; auto.
Qed.

(** The search endpoint filters before it maps: whatever it returns is a
    movie or a show. *)
Lemma search_movie_or_tv (key : option string) (r : response)
    (items : list CanonicalItem) :
  search key r = Ok items ->
  Forall (fun it => movie_or_tv_value (item_media_type it)) items.
Proof.
  unfold search. destruct (tmdb_get key r) as [data|e]; [simpl|discriminate].
  destruct (results_of data) as [xs|e]; [simpl|discriminate].
  destruct (filterM movie_or_tv xs) as [filtered|e] eqn:Hf; [simpl|discriminate].
  intros Hm. apply filterM_Forall in Hf. apply mapM_Forall2 in Hm.
  induction Hm as [|x it xs' its Hx _ IH]; constructor.
  - inversion Hf; subst. eapply map_item_movie_or_tv; eassumption.
  - apply IH. inversion Hf; assumption.
Qed.

(** C4 fails on the code: the trending endpoint maps every upstream result
    without the filter the search endpoint applies, so a person of the
    trending feed comes out with media type ["person"]; the search endpoint
    drops the same record. *)
Theorem C4_trending_keeps_person :
  trending (Some "key") trending_with_person = Ok [person_item]
  /\ item_media_type person_item = JStr "person"
  /\ search (Some "key") trending_with_person = Ok [].
Proof. repeat split. Qed.

Lemma is_trailer_qualifies (v : json) :
  is_object v = true -> is_trailer v = Ok (qualifies v).
Proof.
  destruct v as [| | | | | |e]; try discriminate. intros _.
  unfold is_trailer, qualifies; simpl. fold (get e "site") (get e "type").
  destruct (eq_str (get e "site") "YouTube"); reflexivity.
Qed.

Lemma next_match_none (vs : list json) :
  Forall (fun v => is_object v = true) vs ->
  Forall (fun v => qualifies v = false) vs ->
  next_match is_trailer vs = Ok None.
Proof.
  induction 1 as [|v vs Hv _ IH]; intros Hq; simpl; [reflexivity|].
  inversion Hq as [|? ? Hqv Hqs]; subst.
  rewrite (is_trailer_qualifies v Hv), Hqv. simpl. apply IH; assumption.
Qed.

Lemma next_match_first (vs : list json) (yt : option json) :
  Forall (fun v => is_object v = true) vs ->
  first_qualifying vs yt ->
  next_match is_trailer vs = Ok yt.
Proof.
  intros Hobj Hfq. destruct Hfq as [vs Hq | pre v post Hq Hv].
  - apply next_match_none; assumption.
  - induction pre as [|p pre IH]; simpl.
    + inversion Hobj as [|? ? Ho _]; subst.
      rewrite (is_trailer_qualifies v Ho), Hv. reflexivity.
    + inversion Hobj as [|? ? Ho Hos]; subst.
      inversion Hq as [|? ? Hqp Hqs]; subst.
      rewrite (is_trailer_qualifies p Ho), Hqp. simpl. apply IH; assumption.
Qed.

(** Every list has a first qualifying video, or none. *)
Lemma first_qualifying_total (vs : list json) : exists yt, first_qualifying vs yt.
Proof.
  induction vs as [|v vs [yt IH]].
  - exists None. constructor. constructor.
  - destruct (qualifies v) eqn:Hv.
    + exists (Some v). apply (fq_some [] v vs); [constructor | assumption].
    + destruct IH as [vs Hq | pre w post Hq Hw].
      * exists None. constructor. constructor; assumption.
      * exists (Some w). apply (fq_some (v :: pre) w post); [|assumption].
        constructor; assumption.
Qed.

Lemma qualifies_truthy (v : json) : qualifies v = true -> truthy v = true.
Proof.
  destruct v as [| | | | | |e]; try discriminate.
  destruct e; [discriminate | reflexivity].
Qed.

Lemma trailer_key_of_first (d vd : dict) (vs : list json) (yt : option json) :
  lookup_key d "videos" = Some (JObj vd) ->
  lookup_key vd "results" = Some (JArr vs) ->
  Forall (fun v => is_object v = true) vs ->
  first_qualifying vs yt ->
  trailer_key_of d = Ok (key_of yt).
Proof.
  intros Hv Hr Hobj Hfq. unfold trailer_key_of, get_default.
  rewrite Hv. simpl. unfold get_default. rewrite Hr. simpl.
  rewrite (next_match_first vs yt Hobj Hfq). simpl.
  destruct Hfq as [vs Hq | pre v post Hq Hqv]; [reflexivity|].
  rewrite (qualifies_truthy v Hqv).
  destruct v as [| | | | | |e]; try discriminate. reflexivity.
Qed.

(** The detail endpoint stores what [trailer_key_of] computed. *)
Lemma title_details_trailer_key (key : option string) (r : response)
    (d : dict) (it : CanonicalItemDetail) :
  tmdb_get key r = Ok (JObj d) ->
  title_details key r = Ok it ->
  trailer_key_of d = Ok (detail_trailer_key it).
Proof.
  intros Hg. unfold title_details. rewrite Hg. cbn [bind].
  destruct (map_item (JObj d)) as [item|e]; cbn [bind]; [|discriminate].
  destruct (py_iter (get_default d "genres" (JArr []))) as [gs|e];
    cbn [bind]; [|discriminate].
  destruct (mapM _ gs) as [genres|e]; cbn [bind]; [|discriminate].
  destruct (runtime_of d) as [runtime|e]; cbn [bind]; [|discriminate].
  destruct (cast_of d) as [cast|e]; cbn [bind]; [|discriminate].
  destruct (trailer_key_of d) as [tk|e]; cbn [bind]; [|discriminate].
  intros [= <-]. reflexivity.
Qed.

(** C9: for a detail record whose videos are a list of objects, the
    trailer key is the key of the first video, in upstream order, that is
    hosted on YouTube and is a Trailer or a Teaser, whichever of the two
    comes first; it is null when no video qualifies.  The detail endpoint
    returns that value as [trailer_key]. *)
Theorem C9_trailer_is_first_qualifying (d vd : dict) (vs : list json)
    (yt : option json) :
  lookup_key d "videos" = Some (JObj vd) ->
  lookup_key vd "results" = Some (JArr vs) ->
  Forall (fun v => is_object v = true) vs ->
  first_qualifying vs yt ->
  trailer_key_of d = Ok (key_of yt)
  /\ forall key r it,
       tmdb_get key r = Ok (JObj d) -> title_details key r = Ok it ->
       detail_trailer_key it = key_of yt.
Proof.
  intros Hv Hr Hobj Hfq.
  pose proof (trailer_key_of_first d vd vs yt Hv Hr Hobj Hfq) as Htk.
  split; [assumption|].
  intros key r it Hg Ht.
  pose proof (title_details_trailer_key key r d it Hg Ht) as H.
  congruence.
Qed.

Lemma C9_trailer_is_first_qualifying_witness :
  trailer_key_of clip_then_trailer = Ok (JStr "abc")
  /\ exists it, title_details (Some "key") detail_response = Ok it
                /\ detail_trailer_key it = JStr "abc".
Proof.
  assert (Hfq : first_qualifying [the_clip; the_trailer] (Some the_trailer)).
  { apply (fq_some [the_clip] the_trailer []).
    - constructor; [reflexivity | constructor].
    - reflexivity. }
  assert (Hobj : Forall (fun v => is_object v = true) [the_clip; the_trailer]).
  { repeat constructor. }
  destruct (C9_trailer_is_first_qualifying clip_then_trailer
              [("results", JArr [the_clip; the_trailer])]
              [the_clip; the_trailer] (Some the_trailer)
              eq_refl eq_refl Hobj Hfq) as [Hk Hd].
  split; [exact Hk|].
  eexists. split; [reflexivity|].
  apply (Hd (Some "key") detail_response); reflexivity.
Defined.

(** ** Statements about the watchlist *)

Example ObjectId_stored : ObjectId stored_id = Ok [101; 240; 0; 0; 0; 0; 0; 0; 0; 0; 0; 1]%N.
Proof. reflexivity. Qed.

Lemma update_one_no_match (o : list N) (fields : list (string * bson)) (c : collection) :
  Forall (fun d => has_id o d = false) c -> update_one o fields c = (0, c).
Proof.
  induction 1 as [|d c Hd _ IH]; simpl; [reflexivity|].
  rewrite Hd, IH. reflexivity.
Qed.

Lemma delete_one_no_match (o : list N) (c : collection) :
  Forall (fun d => has_id o d = false) c -> delete_one o c = (0, c).
Proof.
  induction 1 as [|d c Hd _ IH]; simpl; [reflexivity|].
  rewrite Hd, IH. reflexivity.
Qed.

Lemma update_one_first_match (o : list N) (fields : list (string * bson))
    (c : collection) (i : nat) (d : document) :
  first_match o c i d ->
  update_one o fields c = (1, <[i := set_fields fields d]> c).
Proof.
  revert i. induction c as [|d0 c IH]; intros i (Hi & Hd & Hbefore).
  - discriminate Hi.
  - destruct i as [|i]; simpl in *.
    + injection Hi as ->. rewrite Hd. reflexivity.
    + rewrite (Hbefore 0%nat d0) by (lia || reflexivity).
      rewrite (IH i); [reflexivity|].
      split; [assumption|]. split; [assumption|].
      intros j d' Hj Hl. apply (Hbefore (S j) d'); [lia | assumption].
Qed.

Lemma update_data_empty (p : WatchlistUpdate) :
  provides_fields p = false -> update_data p = [].
Proof.
  destruct p as [[s|] [b|] [q|]]; try discriminate. reflexivity.
Qed.

Lemma update_data_nonempty (p : WatchlistUpdate) :
  provides_fields p = true -> exists kv rest, update_data p = kv :: rest.
Proof.
  destruct p as [[s|] [b|] [q|]]; try discriminate; intros _;
    eexists; eexists; reflexivity.
Qed.

(** The update handler once the payload provides a field. *)
Lemma update_watchlist_item_fields (c : collection) (now : Z) (item_id : string)
    (p : WatchlistUpdate) :
  provides_fields p = true ->
  update_watchlist_item (Some c) now item_id p
  = match ObjectId item_id with
    | Raise e => (Raise (HTTPException 500 (StrOf e)), Some c)
    | Ok o =>
        let '(n, c') := update_one o (update_data p ++ [("updated_at", BDate now)]) c in
        if n =? 0 then (Raise not_found_as_500, Some c')
        else (Ok (Status "ok"), Some c')
    end.
Proof.
  intros Hp. destruct (update_data_nonempty p Hp) as (kv & rest & Hu).
  unfold update_watchlist_item, with_db, try_except, bindH, lift. rewrite Hu.
  destruct (ObjectId item_id) as [o|e]; [|reflexivity].
  destruct (update_one o _ c) as [n c'].
  destruct (n =? 0); reflexivity.
Qed.

Lemma delete_watchlist_item_some (c : collection) (item_id : string) :
  delete_watchlist_item (Some c) item_id
  = match ObjectId item_id with
    | Raise e => (Raise (HTTPException 500 (StrOf e)), Some c)
    | Ok o =>
        let '(n, c') := delete_one o c in
        if n =? 0 then (Raise not_found_as_500, Some c')
        else (Ok (Status "ok"), Some c')
    end.
Proof.
  unfold delete_watchlist_item, with_db, try_except, bindH, lift.
  destruct (ObjectId item_id) as [o|e]; [|reflexivity].
  destruct (delete_one o c) as [n c'].
  destruct (n =? 0); reflexivity.
Qed.

(** C2 fails on the code: when no stored document has the identifier, the
    handlers raise the 404 inside their own [try], whose [except Exception]
    catches it and raises a 500 in its place.  The store is left as it was,
    but the status is 500, for a delete and for an update that provides a
    field alike. *)
Theorem C2_not_found_comes_out_as_500 (c : collection) (item_id : string)
    (o : list N) :
  ObjectId item_id = Ok o ->
  Forall (fun d => has_id o d = false) c ->
  delete_watchlist_item (Some c) item_id = (Raise not_found_as_500, Some c)
  /\ status_of not_found_as_500 = Some 500
  /\ forall now p, provides_fields p = true ->
       update_watchlist_item (Some c) now item_id p
       = (Raise not_found_as_500, Some c).
Proof.
  intros Ho Hc. split; [|split].
  - rewrite delete_watchlist_item_some, Ho, (delete_one_no_match o c Hc).
    reflexivity.
  - reflexivity.
  - intros now p Hp.
    rewrite (update_watchlist_item_fields c now item_id p Hp), Ho.
    rewrite (update_one_no_match o _ c Hc). reflexivity.
Qed.

Lemma stored_doc_other_id :
  Forall (fun d => has_id [0; 0; 0; 0; 0; 0; 0; 0; 0; 0; 0; 0]%N d = false) [stored_doc].
Proof. repeat constructor. Qed.

Lemma C2_not_found_comes_out_as_500_witness :
  delete_watchlist_item (Some [stored_doc]) unused_id
  = (Raise (HTTPException 500 (StrOf (HTTPException 404 (Text "Item not found")))),
     Some [stored_doc])
  /\ update_watchlist_item (Some [stored_doc]) 2000 unused_id mark_watched
     = (Raise (HTTPException 500 (StrOf (HTTPException 404 (Text "Item not found")))),
        Some [stored_doc]).
Proof.
  destruct (C2_not_found_comes_out_as_500 [stored_doc] unused_id
              [0; 0; 0; 0; 0; 0; 0; 0; 0; 0; 0; 0]%N eq_refl stored_doc_other_id)
    as (Hd & _ & Hu).
  split; [exact Hd | exact (Hu 2000 mark_watched eq_refl)].
Defined.

(** Without a store every watchlist handler fails before it looks at the
    request. *)
Lemma update_without_store (now : Z) (item_id : string) (p : WatchlistUpdate) :
  update_watchlist_item None now item_id p
  = (Raise (HTTPException 500 (Text "Database not available")), None).
Proof. reflexivity. Qed.

(** C5: an update whose payload provides no field answers ["no-op"], not
    an error, and leaves the collection, hence every stored document and
    every field of it, [updated_at] included, as it was. *)
Theorem C5_empty_update_is_noop (c : collection) (now : Z) (item_id : string)
    (p : WatchlistUpdate) :
  provides_fields p = false ->
  update_watchlist_item (Some c) now item_id p = (Ok (Status "no-op"), Some c).
Proof.
  intros Hp. unfold update_watchlist_item, with_db, try_except.
  rewrite (update_data_empty p Hp). reflexivity.
Qed.

Lemma C5_empty_update_is_noop_witness :
  update_watchlist_item (Some [stored_doc]) 2000 stored_id no_update
  = (Ok (Status "no-op"), Some [stored_doc]).
Proof.
  exact (C5_empty_update_is_noop [stored_doc] 2000 stored_id no_update eq_refl).
Defined.

(** C10: with an empty payload the update answers ["no-op"] also when no
    stored document has the identifier: the payload is looked at before the
    identifier is even parsed.  The same identifier with a field provided
    raises. *)
Theorem C10_empty_update_skips_lookup (c : collection) (now : Z)
    (item_id : string) (p : WatchlistUpdate) :
  matches_none item_id c ->
  provides_fields p = false ->
  update_watchlist_item (Some c) now item_id p = (Ok (Status "no-op"), Some c)
  /\ forall p', provides_fields p' = true ->
       exists e, update_watchlist_item (Some c) now item_id p'
                 = (Raise (HTTPException 500 (StrOf e)), Some c).
Proof.
  intros Hnone Hp. split.
  - unfold update_watchlist_item, with_db, try_except.
    rewrite (update_data_empty p Hp). reflexivity.
  - intros p' Hp'. rewrite (update_watchlist_item_fields c now item_id p' Hp').
    destruct (ObjectId item_id) as [o|e] eqn:Ho.
    + rewrite (update_one_no_match o _ c (Hnone o Ho)).
      eexists; reflexivity.
    + eexists; reflexivity.
Qed.

Lemma unused_id_matches_none : matches_none unused_id [stored_doc].
Proof. intros o [= <-]. exact stored_doc_other_id. Qed.

Lemma C10_empty_update_skips_lookup_witness :
  update_watchlist_item (Some [stored_doc]) 2000 unused_id no_update
  = (Ok (Status "no-op"), Some [stored_doc]).
Proof.
  exact (proj1 (C10_empty_update_skips_lookup [stored_doc] 2000 unused_id no_update
                  unused_id_matches_none eq_refl)).
Defined.

Ltac lookup_fields :=
  repeat first
    [ rewrite lookup_insert_eq
    | rewrite lookup_insert_ne by (discriminate || congruence) ];
  try reflexivity.

(** What [$set] with the update of payload [p] at time [now] leaves in a
    document: the provided fields and [updated_at] are written, every other
    field keeps its value. *)
Lemma set_fields_update_data (p : WatchlistUpdate) (now : Z) (d : document) :
  let d' := set_fields (update_data p ++ [("updated_at", BDate now)]) d in
  d' !! "updated_at" = Some (BDate now)
  /\ d' !! "status" = match wu_status p with
                      | Some s => Some (BStr s)
                      | None => d !! "status"
                      end
  /\ d' !! "liked" = match wu_liked p with
                     | Some b => Some (BBool b)
                     | None => d !! "liked"
                     end
  /\ d' !! "rating" = match wu_rating p with
                      | Some q => Some (BFloat q)
                      | None => d !! "rating"
                      end
  /\ forall k, ~ In k mutable_fields -> d' !! k = d !! k.
Proof.
  destruct p as [[s|] [b|] [q|]]; cbv zeta; unfold set_fields; simpl;
    (split; [lookup_fields | split; [lookup_fields | split;
       [lookup_fields | split; [lookup_fields |]]]]);
    intros k Hk; unfold mutable_fields in Hk; simpl in Hk;
    assert (Hs : "status" <> k) by tauto;
    assert (Hl : "liked" <> k) by tauto;
    assert (Hr : "rating" <> k) by tauto;
    assert (Hu : "updated_at" <> k) by tauto;
    rewrite ?lookup_insert_ne by assumption; reflexivity.
Qed.

(** C6: an update that provides fields and finds its document answers
    ["ok"] and replaces that document alone; in the new document the
    provided fields among status, liked and rating have the provided values,
    [updated_at] is the time of the update, a field that was not provided
    keeps its stored value (it is not nulled), and every other field, the
    identifier included, is as before. *)
Theorem C6_update_writes_only_provided (c : collection) (now : Z)
    (item_id : string) (p : WatchlistUpdate) (o : list N) (i : nat)
    (d : document) :
  ObjectId item_id = Ok o ->
  provides_fields p = true ->
  first_match o c i d ->
  exists d',
    update_watchlist_item (Some c) now item_id p
    = (Ok (Status "ok"), Some (<[i := d']> c))
    /\ d' !! "updated_at" = Some (BDate now)
    /\ d' !! "status" = match wu_status p with
                        | Some s => Some (BStr s)
                        | None => d !! "status"
                        end
    /\ d' !! "liked" = match wu_liked p with
                       | Some b => Some (BBool b)
                       | None => d !! "liked"
                       end
    /\ d' !! "rating" = match wu_rating p with
                        | Some q => Some (BFloat q)
                        | None => d !! "rating"
                        end
    /\ forall k, ~ In k mutable_fields -> d' !! k = d !! k.
Proof.
  intros Ho Hp Hm.
  exists (set_fields (update_data p ++ [("updated_at", BDate now)]) d).
  split; [|apply set_fields_update_data].
  rewrite (update_watchlist_item_fields c now item_id p Hp), Ho.
  rewrite (update_one_first_match o _ c i d Hm). reflexivity.
Qed.

Lemma stored_doc_first_match :
  first_match [101; 240; 0; 0; 0; 0; 0; 0; 0; 0; 0; 1]%N [stored_doc] 0 stored_doc.
Proof.
  split; [reflexivity|]. split; [reflexivity|].
  intros j d' Hj. lia.
Qed.

Lemma C6_update_writes_only_provided_witness :
  exists d',
    update_watchlist_item (Some [stored_doc]) 2000 stored_id mark_watched
    = (Ok (Status "ok"), Some [d'])
    /\ d' !! "updated_at" = Some (BDate 2000)
    /\ d' !! "status" = Some (BStr "watched")
    /\ d' !! "liked" = Some (BBool false)
    /\ d' !! "rating" = Some BNull
    /\ d' !! "title" = Some (BStr "Dune").
Proof.
  destruct (C6_update_writes_only_provided [stored_doc] 2000 stored_id mark_watched
              [101; 240; 0; 0; 0; 0; 0; 0; 0; 0; 0; 1]%N 0 stored_doc
              eq_refl eq_refl stored_doc_first_match)
    as (d' & Hr & Hu & Hs & Hl & Hg & Hk).
  exists d'. split; [exact Hr|]. split; [exact Hu|]. split; [exact Hs|].
  split; [exact Hl|]. split; [exact Hg|].
  rewrite Hk; [reflexivity|].
  unfold mutable_fields. simpl. intros [H|[H|[H|[H|[]]]]]; discriminate H.
Defined.

Lemma rating_out_of_range (q : Q) :
  (q < 0 \/ 10 < q)%Q -> rating_ok (Some q) = false.
Proof.
  intros H. unfold rating_ok. apply andb_false_iff.
  destruct H as [H | H]; [left | right];
    apply not_true_is_false; rewrite Qle_bool_iff;
    apply Qlt_not_le; assumption.
Qed.

(** C8: a create request whose rating is below 0 or above 10 is rejected
    by the validation of the request model: the handler is not called, so
    [create_document], whatever it does, does not run, and the store is as
    it was. *)
Theorem C8_rating_out_of_range_rejected
    (create_document : option collection -> string -> WatchlistCreate ->
                       result string * option collection)
    (db : option collection) (body : WatchlistCreate) (q : Q) :
  wc_rating body = Some q ->
  (q < 0 \/ 10 < q)%Q ->
  post_api_watchlist create_document db body = (Raise RequestValidationError, db).
Proof.
  intros Hr Hq. unfold post_api_watchlist, valid_WatchlistCreate.
  rewrite Hr, (rating_out_of_range q Hq), andb_false_r. reflexivity.
Qed.

Lemma C8_rating_out_of_range_rejected_witness :
  post_api_watchlist (create_document_model stored_id 2000) (Some []) overrated
  = (Raise RequestValidationError, Some []).
Proof.
  apply (C8_rating_out_of_range_rejected
           (create_document_model stored_id 2000) (Some []) overrated (11 # 1)).
  - reflexivity.
  - right. reflexivity.
Defined.

(** ** Further properties of the normalizer *)

Lemma numeral_nonempty (ds : list Z) : ds <> [] -> numeral ds <> EmptyString.
Proof. destruct ds; [congruence | discriminate]. Qed.

Lemma append_nonempty (s t : string) :
  s <> EmptyString -> String.append s t <> EmptyString.
Proof. destruct s; [congruence | discriminate]. Qed.

(** X1: A release date that starts with a decimal numeral followed by a dash
    gives the number the numeral denotes as the year. *)
Theorem year_of_numeral_date (d : dict) (ds : list Z) (rest : string) :
  get d "release_date" = JStr (String.append (numeral ds) (String "-" rest)) ->
  ds <> [] -> Forall is_digit ds -> (length ds <= int_max_str_digits)%nat ->
  year_result (map_item (JObj d)) = Ok (Some (decimal_value ds)).
Proof.
  intros Hr Hne Hds Hlen.
  assert (Hs : String.append (numeral ds) (String "-" rest) <> EmptyString)
    by (apply append_nonempty, numeral_nonempty; assumption).
  rewrite year_result_map_item, (selected_date_release d _ Hr Hs).
  rewrite year_of_string by assumption.
  rewrite before_dash_numeral, py_int_numeral by assumption. reflexivity.
Qed.

Lemma year_of_numeral_date_witness :
  year_result (map_item (JObj dated_record)) = Ok (Some 2020).
Proof.
  apply (year_of_numeral_date dated_record [2; 0; 2; 0] "05-01").
  - reflexivity.
  - discriminate.
  - repeat constructor; unfold is_digit; lia.
  - unfold int_max_str_digits. simpl. lia.
Defined.

(** X2: A date whose first dash-segment holds a character that no integer
    literal has (a letter, a dot, a slash) makes [map_item] raise
    [ValueError], whatever the other fields are. *)
Theorem map_item_raises_on_bad_year (d : dict) (s : string) (c : ascii) :
  selected_date d = JStr s ->
  In c (list_ascii_of_string (before_dash s)) ->
  int_char c = false ->
  map_item (JObj d) = Raise ValueError.
Proof.
  intros Hs Hin Hc.
  assert (Hne : s <> EmptyString) by (destruct s; [destruct Hin | discriminate]).
  rewrite map_item_year, Hs, year_of_string by assumption.
  rewrite (py_int_bad_char c _ Hin Hc). reflexivity.
Qed.

Lemma map_item_raises_on_bad_year_witness :
  map_item (JObj [("title", JStr "Brazil"); ("release_date", JStr "20/02/1985")])
  = Raise ValueError.
Proof.
  apply (map_item_raises_on_bad_year _ "20/02/1985" "/"%char).
  - reflexivity.
  - simpl. tauto.
  - reflexivity.
Defined.

(** X3: The image fields: there is a poster exactly when [poster_path] is true
    in Python's sense, and for a path that is a string the poster is the
    w500 base followed by the path (the backdrop: the original-size base),
    so no URL ends at the base. *)
Theorem map_item_images (d : dict) (it : CanonicalItem) :
  map_item (JObj d) = Ok it ->
  (item_poster it = None <-> truthy (get d "poster_path") = false)
  /\ (item_backdrop it = None <-> truthy (get d "backdrop_path") = false)
  /\ (forall p, get d "poster_path" = JStr p ->
        text_of (item_poster it)
        = if String.eqb p "" then None else Some (String.append IMG_W500 p))
  /\ (forall p, get d "backdrop_path" = JStr p ->
        text_of (item_backdrop it)
        = if String.eqb p "" then None else Some (String.append IMG_ORIGINAL p)).
Proof.
  intros H. apply map_item_returns in H as (_ & _ & _ & _ & _ & Hp & Hb & _).
  rewrite Hp, Hb. unfold image.
  split; [|split; [|split]].
  - destruct (truthy (get d "poster_path")); split; congruence.
  - destruct (truthy (get d "backdrop_path")); split; congruence.
  - intros p Hg. rewrite Hg. simpl. destruct (String.eqb p ""); reflexivity.
  - intros p Hg. rewrite Hg. simpl. destruct (String.eqb p ""); reflexivity.
Qed.

Lemma map_item_images_witness :
  text_of (item_poster
             {| item_id := JInt 7; item_media_type := JStr "movie";
                item_title := JStr "Heat"; item_overview := JNull;
                item_poster := Some (Fmt IMG_W500 (JStr "/h.jpg"));
                item_backdrop := None; item_rating := JNull; item_votes := JNull;
                item_year := Some 1995 |})
  = Some "https://image.tmdb.org/t/p/w500/h.jpg".
Proof.
  exact (proj1 (proj2 (proj2
    (map_item_images
       [("id", JInt 7); ("title", JStr "Heat");
        ("release_date", JStr "1995-12-15"); ("poster_path", JStr "/h.jpg")]
       _ eq_refl))) "/h.jpg" eq_refl).
Defined.

(** X4: The title: the record's ["title"] when it is true in Python's sense,
    else its ["name"]; so the output title is false in that sense only when
    both are. *)
Theorem map_item_title (d : dict) (it : CanonicalItem) :
  map_item (JObj d) = Ok it ->
  item_title it = (if truthy (get d "title") then get d "title" else get d "name")
  /\ truthy (item_title it) = truthy (get d "title") || truthy (get d "name").
Proof.
  intros H. apply map_item_returns in H as (_ & _ & Ht & _).
  rewrite Ht. unfold py_or.
  destruct (truthy (get d "title")) eqn:E; [rewrite E|]; split; reflexivity.
Qed.

Lemma map_item_title_witness :
  item_title dune_item = JStr "Dune" /\ truthy (item_title dune_item) = true.
Proof. exact (map_item_title dune_record dune_item eq_refl). Defined.

(** ** Further properties of the proxy endpoints *)

Lemma run_list_unfold (e : list_endpoint) (key : option string) (r : response) :
  run_list e key r
  = let! data := tmdb_get key r in let! xs := results_of data in mapM map_item xs.
Proof. destruct e; reflexivity. Qed.

Lemma Forall2_length_eq {A B : Type} (P : A -> B -> Prop) (l : list A) (l' : list B) :
  Forall2 P l l' -> length l = length l'.
Proof. induction 1; simpl; congruence. Qed.

(** X5: A list endpoint answers with one item for each upstream result, in the
    upstream order: the [i]-th item is [map_item] of the [i]-th result. *)
Theorem list_endpoint_maps_in_order (e : list_endpoint) (key : option string)
    (r : response) (data : json) (xs : list json) (items : list CanonicalItem) :
  tmdb_get key r = Ok data ->
  results_of data = Ok xs ->
  run_list e key r = Ok items ->
  length items = length xs
  /\ forall i x, xs !! i = Some x ->
       exists it, items !! i = Some it /\ map_item x = Ok it.
Proof.
  intros Hg Hr. rewrite run_list_unfold, Hg. cbn [bind]. rewrite Hr. cbn [bind].
  intros Hm. apply mapM_Forall2 in Hm. clear Hg Hr. split.
  - symmetry. eapply Forall2_length_eq; eassumption.
  - induction Hm as [|x0 it0 xs' its Hx _ IH]; intros i x Hi.
    + destruct i; discriminate Hi.
    + destruct i as [|i]; simpl in *.
      * injection Hi as <-. exists it0. split; [reflexivity | assumption].
      * apply IH; assumption.
Qed.

Lemma list_endpoint_maps_in_order_witness :
  length [person_item] = 1%nat
  /\ exists it, [person_item] !! 0%nat = Some it
                /\ map_item (JObj [("id", JInt 500); ("media_type", JStr "person");
                                   ("name", JStr "Tilda Swinton")]) = Ok it.
Proof.
  destruct (list_endpoint_maps_in_order TopRated (Some "key") trending_with_person
              _ _ [person_item] eq_refl eq_refl eq_refl) as [Hl Hi].
  split; [exact Hl|]. exact (Hi 0%nat _ eq_refl).
Defined.

Lemma mapM_first_failure {A B : Type} (f : A -> result B) (pre : list A) (x : A)
    (post : list A) (e : exn) :
  Forall (fun a => returns (f a)) pre -> f x = Raise e ->
  mapM f (pre ++ x :: post) = Raise e.
Proof.
  intros Hpre Hx. induction Hpre as [|a pre [b Ha] _ IH]; simpl.
  - rewrite Hx. reflexivity.
  - rewrite Ha, IH. reflexivity.
Qed.

(** X6: One upstream result that [map_item] cannot read fails the whole list:
    the endpoint raises the exception of the first such result and gives no
    item at all. *)
Theorem list_endpoint_fails_as_a_whole (e : list_endpoint) (key : option string)
    (r : response) (data : json) (pre : list json) (x : json) (post : list json)
    (err : exn) :
  tmdb_get key r = Ok data ->
  results_of data = Ok (pre ++ x :: post) ->
  Forall (fun a => returns (map_item a)) pre ->
  map_item x = Raise err ->
  run_list e key r = Raise err.
Proof.
  intros Hg Hr Hpre Hx. rewrite run_list_unfold, Hg. cbn [bind]. rewrite Hr. cbn [bind].
  apply mapM_first_failure; assumption.
Qed.

Lemma list_endpoint_fails_as_a_whole_witness :
  upcoming_movies (Some "key") one_bad_date = Raise ValueError.
Proof.
  apply (list_endpoint_fails_as_a_whole Upcoming (Some "key") one_bad_date
           one_bad_date_body [JObj dune_record] (JObj unreleased_record)
           [JObj dated_record] ValueError).
  - reflexivity.
  - reflexivity.
  - constructor; [eexists; reflexivity | constructor].
  - reflexivity.
Defined.

(** X7: Without an API key (not set, or empty) no endpoint looks at what the
    provider answered: each raises the same 500. *)
Theorem no_key_no_request (key : option string) (r : response) :
  no_key key ->
  (forall e, run_list e key r = Raise key_missing)
  /\ search key r = Raise key_missing
  /\ title_details key r = Raise key_missing.
Proof.
  intros [-> | ->]; (split; [intros []; reflexivity | split; reflexivity]).
Qed.

Lemma no_key_no_request_witness :
  trending (Some EmptyString) mixed_results = Raise key_missing
  /\ title_details None detail_response = Raise key_missing.
Proof.
  split.
  - exact (proj1 (no_key_no_request (Some EmptyString) mixed_results
                    (or_intror eq_refl)) Trending).
  - exact (proj2 (proj2 (no_key_no_request None detail_response (or_introl eq_refl)))).
Defined.

Lemma tmdb_get_upstream_failed (c : ascii) (k : string) (r : response) :
  upstream_failed r ->
  tmdb_get (Some (String c k)) r
  = Raise (HTTPException (resp_status_code r) (Text (resp_text r))).
Proof.
  intros [H4 H6]. unfold tmdb_get, resp_ok.
  apply Z.leb_le in H4. apply Z.ltb_lt in H6. rewrite H4, H6. reflexivity.
Qed.

(** X8: A client or server error of the provider (status 400 to 599) comes
    out of every endpoint as an [HTTPException] with the provider's status
    and body; the body is not decoded. *)
Theorem upstream_error_passes_through (c : ascii) (k : string) (r : response) :
  upstream_failed r ->
  let err := HTTPException (resp_status_code r) (Text (resp_text r)) in
  (forall e, run_list e (Some (String c k)) r = Raise err)
  /\ search (Some (String c k)) r = Raise err
  /\ title_details (Some (String c k)) r = Raise err.
Proof.
  intros H err. pose proof (tmdb_get_upstream_failed c k r H) as Hg.
  split; [|split].
  - intros e. rewrite run_list_unfold, Hg. reflexivity.
  - unfold search. rewrite Hg. reflexivity.
  - unfold title_details. rewrite Hg. reflexivity.
Qed.

Lemma upstream_error_passes_through_witness :
  popular_tv (Some "key") bad_gateway = Raise (HTTPException 502 (Text "upstream down"))
  /\ search (Some "key") bad_gateway = Raise (HTTPException 502 (Text "upstream down")).
Proof.
  assert (H : upstream_failed bad_gateway) by (unfold upstream_failed; simpl; lia).
  split.
  - exact (proj1 (upstream_error_passes_through "k"%char "ey" bad_gateway H) PopularTv).
  - exact (proj1 (proj2 (upstream_error_passes_through "k"%char "ey" bad_gateway H))).
Defined.

(** X9: An answer without a ["results"] key gives the empty list; one whose
    ["results"] is null is not iterable and raises [TypeError]. *)
Theorem results_missing_or_null (e : list_endpoint) (key : option string)
    (r : response) (d : dict) :
  tmdb_get key r = Ok (JObj d) ->
  (lookup_key d "results" = None ->
     run_list e key r = Ok [] /\ search key r = Ok [])
  /\ (lookup_key d "results" = Some JNull ->
     run_list e key r = Raise TypeError /\ search key r = Raise TypeError).
Proof.
  intros Hg. split; intros Hl; rewrite run_list_unfold; unfold search;
    rewrite Hg; cbn [bind]; unfold results_of, attr_get, get_default;
    rewrite Hl; split; reflexivity.
Qed.

Lemma results_missing_or_null_witness :
  trending (Some "key") no_results = Ok []
  /\ search (Some "key") no_results = Ok [].
Proof.
  exact (proj1 (results_missing_or_null Trending (Some "key") no_results
                  [("status_message", JStr "nothing here")] eq_refl) eq_refl).
Defined.

(** ** Further properties of the search endpoint *)

Lemma search_movie_or_tv_witness :
  search (Some "key") mixed_results = Ok [alien_item]
  /\ Forall (fun it => movie_or_tv_value (item_media_type it)) [alien_item].
Proof.
  split; [reflexivity|].
  exact (search_movie_or_tv (Some "key") mixed_results [alien_item] eq_refl).
Defined.

Lemma movie_or_tv_object (x : json) :
  is_object x = true -> movie_or_tv x = Ok (explicit_movie_or_tv x).
Proof. destruct x; try discriminate. reflexivity. Qed.

Lemma movie_or_tv_non_object (x : json) :
  is_object x = false -> movie_or_tv x = Raise AttributeError.
Proof. destruct x; try discriminate; reflexivity. Qed.

Lemma filterM_objects (xs : list json) :
  Forall (fun x => is_object x = true) xs ->
  filterM movie_or_tv xs = Ok (List.filter explicit_movie_or_tv xs).
Proof.
  induction 1 as [|x xs Hx _ IH]; simpl; [reflexivity|].
  rewrite (movie_or_tv_object x Hx), IH. reflexivity.
Qed.

Lemma filterM_non_object (xs : list json) :
  Exists (fun x => is_object x = false) xs ->
  filterM movie_or_tv xs = Raise AttributeError.
Proof.
  induction xs as [|x xs IH]; intros H; [inversion H|]. simpl.
  destruct (is_object x) eqn:Hx.
  - rewrite (movie_or_tv_object x Hx). cbn [bind].
    rewrite IH; [reflexivity|].
    inversion H as [? ? Hx' | ? ? Ht]; subst; [congruence | assumption].
  - rewrite (movie_or_tv_non_object x Hx). reflexivity.
Qed.

(** X11: The search endpoint keeps exactly the upstream results that say they
    are a movie or a show, in order, and maps those: a result without an
    explicit media type is dropped, although [map_item] would name it a
    movie or a show.  A result that is no object makes the endpoint raise
    [AttributeError], whatever the other results are. *)
Theorem search_keeps_explicit_movie_or_tv (key : option string) (r : response)
    (data : json) (xs : list json) :
  tmdb_get key r = Ok data ->
  results_of data = Ok xs ->
  (Forall (fun x => is_object x = true) xs ->
     search key r = mapM map_item (List.filter explicit_movie_or_tv xs))
  /\ (Exists (fun x => is_object x = false) xs ->
     search key r = Raise AttributeError).
Proof.
  intros Hg Hr. unfold search. rewrite Hg. cbn [bind]. rewrite Hr. cbn [bind].
  split; intros H.
  - rewrite (filterM_objects xs H). reflexivity.
  - rewrite (filterM_non_object xs H). reflexivity.
Qed.

Lemma search_keeps_explicit_movie_or_tv_witness :
  search (Some "key") mixed_results
  = mapM map_item
      [JObj [("id", JInt 11); ("media_type", JStr "movie"); ("title", JStr "Alien")]].
Proof.
  apply (proj1 (search_keeps_explicit_movie_or_tv (Some "key") mixed_results
                  (JObj [("results", JArr mixed_results_list)]) mixed_results_list
                  eq_refl eq_refl)).
  repeat constructor.
Defined.

(** ** Further properties of the detail endpoint *)

(** What the detail endpoint returned, part by part. *)
Lemma title_details_parts (key : option string) (r : response) (d : dict)
    (it : CanonicalItemDetail) :
  tmdb_get key r = Ok (JObj d) ->
  title_details key r = Ok it ->
  map_item (JObj d) = Ok (detail_item it)
  /\ (let! gs := py_iter (get_default d "genres" (JArr [])) in
      mapM (fun g => attr_get g "name" JNull) gs) = Ok (detail_genres it)
  /\ runtime_of d = Ok (detail_runtime it)
  /\ cast_of d = Ok (detail_cast it)
  /\ trailer_key_of d = Ok (detail_trailer_key it)
  /\ detail_release_date it = selected_date d
  /\ detail_tagline it = get d "tagline".
Proof.
  intros Hg. unfold title_details. rewrite Hg. cbn [bind].
  destruct (map_item (JObj d)) as [item|e]; cbn [bind]; [|discriminate].
  destruct (py_iter (get_default d "genres" (JArr []))) as [gs|e];
    cbn [bind]; [|discriminate].
  destruct (mapM _ gs) as [genres|e]; cbn [bind]; [|discriminate].
  destruct (runtime_of d) as [runtime|e]; cbn [bind]; [|discriminate].
  destruct (cast_of d) as [cast|e]; cbn [bind]; [|discriminate].
  destruct (trailer_key_of d) as [tk|e]; cbn [bind]; [|discriminate].
  intros [= <-]. repeat split; reflexivity.
Qed.

Example title_details_big_cast :
  title_details (Some "key") big_cast_response = Ok big_cast_detail.
Proof. reflexivity. Qed.

(** X12: The cast of the detail answer is made of the first ten upstream cast
    entries, in their order, and of nothing else: entries behind the tenth
    are not read, not even to see whether they are objects. *)
Theorem cast_is_first_ten (key : option string) (r : response) (d cd : dict)
    (cs : list json) (it : CanonicalItemDetail) :
  tmdb_get key r = Ok (JObj d) ->
  lookup_key d "credits" = Some (JObj cd) ->
  lookup_key cd "cast" = Some (JArr cs) ->
  title_details key r = Ok it ->
  (length (detail_cast it) <= 10)%nat
  /\ Forall2 (fun c m => cast_member c = Ok m) (firstn 10 cs) (detail_cast it).
Proof.
  intros Hg Hc Hcs Ht.
  destruct (title_details_parts key r d it Hg Ht) as (_ & _ & _ & Hcast & _).
  unfold cast_of, get_default in Hcast. rewrite Hc in Hcast.
  simpl in Hcast. unfold get_default in Hcast. rewrite Hcs in Hcast.
  cbn [bind py_slice10 py_iter] in Hcast.
  apply mapM_Forall2 in Hcast. split; [|exact Hcast].
  rewrite <- (Forall2_length_eq _ _ _ Hcast), length_firstn. lia.
Qed.

Lemma cast_is_first_ten_witness :
  (length (detail_cast big_cast_detail) <= 10)%nat
  /\ Forall2 (fun c m => cast_member c = Ok m) (firstn 10 eleven_cast)
       (detail_cast big_cast_detail).
Proof.
  exact (cast_is_first_ten (Some "key") big_cast_response big_cast
           [("cast", JArr eleven_cast)] eleven_cast big_cast_detail
           eq_refl eq_refl eq_refl eq_refl).
Defined.

(** X13: The genres of the detail answer are the ["name"]s of the upstream
    genres, one for each and in the same order (null for a genre without a
    name). *)
Theorem genres_keep_order (key : option string) (r : response) (d : dict)
    (gs : list json) (it : CanonicalItemDetail) :
  tmdb_get key r = Ok (JObj d) ->
  lookup_key d "genres" = Some (JArr gs) ->
  title_details key r = Ok it ->
  length (detail_genres it) = length gs
  /\ Forall2 (fun g n => exists gd, g = JObj gd /\ n = get gd "name")
       gs (detail_genres it).
Proof.
  intros Hg Hgs Ht.
  destruct (title_details_parts key r d it Hg Ht) as (_ & Hgen & _).
  unfold get_default in Hgen. rewrite Hgs in Hgen. cbn [bind py_iter] in Hgen.
  apply mapM_Forall2 in Hgen.
  split; [symmetry; eapply Forall2_length_eq; eassumption|].
  clear Hg Hgs Ht.
  induction Hgen as [|g n gs' ns Hn _ IH]; [constructor|].
  constructor; [|assumption].
  destruct g as [| | | | | |gd]; try discriminate Hn.
  exists gd. split; [reflexivity|]. simpl in Hn. injection Hn as <-. reflexivity.
Qed.

Lemma genres_keep_order_witness :
  length (detail_genres big_cast_detail) = 2%nat
  /\ Forall2 (fun g n => exists gd, g = JObj gd /\ n = get gd "name")
       [JObj [("id", JInt 18); ("name", JStr "Drama")];
        JObj [("id", JInt 9648); ("name", JStr "Mystery")]]
       (detail_genres big_cast_detail).
Proof.
  exact (genres_keep_order (Some "key") big_cast_response big_cast _ big_cast_detail
           eq_refl eq_refl eq_refl).
Defined.

(** X14: The runtime of the detail answer: the upstream ["runtime"] when it is
    true in Python's sense (so not when it is 0); otherwise the first entry
    of ["episode_run_time"] when that is a non-empty list; null when both
    are false in that sense. *)
Theorem runtime_falls_back (key : option string) (r : response) (d : dict)
    (it : CanonicalItemDetail) :
  tmdb_get key r = Ok (JObj d) ->
  title_details key r = Ok it ->
  (truthy (get d "runtime") = true -> detail_runtime it = get d "runtime")
  /\ (truthy (get d "runtime") = false ->
      forall x rest, get d "episode_run_time" = JArr (x :: rest) ->
      detail_runtime it = x)
  /\ (truthy (get d "runtime") = false ->
      truthy (get d "episode_run_time") = false ->
      detail_runtime it = JNull).
Proof.
  intros Hg Ht.
  destruct (title_details_parts key r d it Hg Ht) as (_ & _ & Hrt & _).
  unfold runtime_of in Hrt. split; [|split].
  - intros H. rewrite H in Hrt. congruence.
  - intros H x rest He. rewrite H in Hrt.
    assert (Hd : get_default d "episode_run_time" (JArr [JNull]) = JArr (x :: rest)).
    { unfold get, get_default in *.
      destruct (lookup_key d "episode_run_time"); [assumption | discriminate He]. }
    rewrite He, Hd in Hrt. simpl in Hrt. congruence.
  - intros H He. rewrite H, He in Hrt. congruence.
Qed.

Lemma runtime_falls_back_witness :
  detail_runtime big_cast_detail = JInt 60.
Proof.
  exact (proj1 (proj2 (runtime_falls_back (Some "key") big_cast_response big_cast
                         big_cast_detail eq_refl eq_refl))
           eq_refl (JInt 60) [JInt 45] eq_refl).
Defined.

(** X15: A truthy ["episode_run_time"] that is a number cannot be indexed: with
    no usable ["runtime"] the detail endpoint raises instead of answering. *)
Theorem runtime_of_number_raises (key : option string) (r : response) (d : dict)
    (n : Z) :
  tmdb_get key r = Ok (JObj d) ->
  truthy (get d "runtime") = false ->
  get d "episode_run_time" = JInt n -> n <> 0 ->
  runtime_of d = Raise TypeError
  /\ exists e, title_details key r = Raise e.
Proof.
  intros Hg Hrt He Hn.
  assert (Hr : runtime_of d = Raise TypeError).
  { unfold runtime_of. rewrite Hrt, He. simpl.
    destruct (Z.eqb_spec n 0) as [|_]; [contradiction|]. simpl.
    unfold get, get_default in *.
    destruct (lookup_key d "episode_run_time"); [|discriminate He].
    rewrite He. reflexivity. }
  split; [assumption|].
  unfold title_details. rewrite Hg. cbn [bind].
  destruct (map_item (JObj d)) as [item|e]; cbn [bind]; [|eexists; reflexivity].
  destruct (py_iter (get_default d "genres" (JArr []))) as [gs|e];
    cbn [bind]; [|eexists; reflexivity].
  destruct (mapM _ gs) as [genres|e]; cbn [bind]; [|eexists; reflexivity].
  rewrite Hr. eexists; reflexivity.
Qed.

Lemma runtime_of_number_raises_witness :
  runtime_of runtime_as_number_body = Raise TypeError
  /\ title_details (Some "key") runtime_as_number = Raise TypeError.
Proof.
  split; [|reflexivity].
  exact (proj1 (runtime_of_number_raises (Some "key") runtime_as_number
                  runtime_as_number_body 60 eq_refl eq_refl eq_refl
                  ltac:(discriminate))).
Defined.

Lemma next_match_prefix (pre : list json) (v : json) (post : list json) :
  Forall (fun x => is_object x = true) pre ->
  Forall (fun x => qualifies x = false) pre ->
  qualifies v = true ->
  next_match is_trailer (pre ++ v :: post) = Ok (Some v).
Proof.
  intros Hobj Hq Hv. induction pre as [|p pre IH]; simpl.
  - assert (Ho : is_object v = true) by (destruct v; try discriminate; reflexivity).
    rewrite (is_trailer_qualifies v Ho), Hv. reflexivity.
  - inversion Hobj as [|? ? Ho Hos]; subst. inversion Hq as [|? ? Hqp Hqs]; subst.
    rewrite (is_trailer_qualifies p Ho), Hqp. simpl. apply IH; assumption.
Qed.

Lemma next_match_non_object (pre : list json) (x : json) (post : list json) :
  Forall (fun x => is_object x = true) pre ->
  Forall (fun x => qualifies x = false) pre ->
  is_object x = false ->
  next_match is_trailer (pre ++ x :: post) = Raise AttributeError.
Proof.
  intros Hobj Hq Hx. induction pre as [|p pre IH]; simpl.
  - destruct x; try discriminate; reflexivity.
  - inversion Hobj as [|? ? Ho Hos]; subst. inversion Hq as [|? ? Hqp Hqs]; subst.
    rewrite (is_trailer_qualifies p Ho), Hqp. simpl. apply IH; assumption.
Qed.

Lemma trailer_key_of_videos (d vd : dict) (vs : list json) :
  lookup_key d "videos" = Some (JObj vd) ->
  lookup_key vd "results" = Some (JArr vs) ->
  trailer_key_of d
  = let! yt := next_match is_trailer vs in
    match yt with
    | Some v => if truthy v then attr_get v "key" JNull else Ok JNull
    | None => Ok JNull
    end.
Proof.
  intros Hv Hr. unfold trailer_key_of, get_default. rewrite Hv. simpl.
  unfold get_default. rewrite Hr. reflexivity.
Qed.

(** X16: The search for the trailer stops at the first video that qualifies:
    what comes behind it is not looked at, so a malformed entry there does
    no harm; a malformed entry before it makes the computation raise
    [AttributeError]. *)
Theorem trailer_search_stops_at_first (d vd : dict) (pre : list json) (x : json)
    (post : list json) :
  lookup_key d "videos" = Some (JObj vd) ->
  lookup_key vd "results" = Some (JArr (pre ++ x :: post)) ->
  Forall (fun v => is_object v = true) pre ->
  Forall (fun v => qualifies v = false) pre ->
  (qualifies x = true -> trailer_key_of d = Ok (key_of (Some x)))
  /\ (is_object x = false -> trailer_key_of d = Raise AttributeError).
Proof.
  intros Hv Hr Hobj Hq. rewrite (trailer_key_of_videos d vd _ Hv Hr). split; intros Hx.
  - rewrite (next_match_prefix pre x post Hobj Hq Hx). cbn [bind].
    rewrite (qualifies_truthy x Hx).
    destruct x; try discriminate. reflexivity.
  - rewrite (next_match_non_object pre x post Hobj Hq Hx). reflexivity.
Qed.

Lemma trailer_search_stops_at_first_witness :
  trailer_key_of trailer_then_junk = Ok (JStr "abc").
Proof.
  apply (proj1 (trailer_search_stops_at_first trailer_then_junk
                  [("results", JArr [the_clip; the_trailer; JInt 0; JNull])]
                  [the_clip] the_trailer [JInt 0; JNull]
                  eq_refl eq_refl
                  ltac:(repeat constructor) ltac:(repeat constructor))).
  reflexivity.
Defined.

(** X17: The defaults of the detail endpoint stand in for a missing key only.
    Without a ["videos"] key the trailer key is null; with ["videos"] (or
    ["credits"]) present and null, the endpoint raises instead of
    answering. *)
Theorem videos_missing_or_null (key : option string) (r : response) (d : dict) :
  tmdb_get key r = Ok (JObj d) ->
  (lookup_key d "videos" = None ->
     forall it, title_details key r = Ok it -> detail_trailer_key it = JNull)
  /\ (lookup_key d "videos" = Some JNull \/ lookup_key d "credits" = Some JNull ->
     exists e, title_details key r = Raise e).
Proof.
  intros Hg. split.
  - intros Hv it Ht.
    destruct (title_details_parts key r d it Hg Ht) as (_ & _ & _ & _ & Htk & _).
    unfold trailer_key_of, get_default in Htk. rewrite Hv in Htk.
    simpl in Htk. congruence.
  - intros H. unfold title_details. rewrite Hg. cbn [bind].
    destruct (map_item (JObj d)) as [item|e]; cbn [bind]; [|eexists; reflexivity].
    destruct (py_iter (get_default d "genres" (JArr []))) as [gs|e];
      cbn [bind]; [|eexists; reflexivity].
    destruct (mapM _ gs) as [genres|e]; cbn [bind]; [|eexists; reflexivity].
    destruct (runtime_of d) as [runtime|e]; cbn [bind]; [|eexists; reflexivity].
    destruct (cast_of d) as [cast|e] eqn:Hc; cbn [bind]; [|eexists; reflexivity].
    destruct H as [Hv | Hcr].
    + unfold trailer_key_of, get_default. rewrite Hv. eexists; reflexivity.
    + unfold cast_of, get_default in Hc. rewrite Hcr in Hc. discriminate Hc.
Qed.

Lemma videos_missing_or_null_witness :
  (exists e, title_details (Some "key") videos_null = Raise e)
  /\ detail_trailer_key big_cast_detail = JNull.
Proof.
  split.
  - apply (proj2 (videos_missing_or_null (Some "key") videos_null
                    [("id", JInt 3); ("title", JStr "Tenet"); ("videos", JNull)]
                    eq_refl)).
    left. reflexivity.
  - exact (proj1 (videos_missing_or_null (Some "key") big_cast_response big_cast
                    eq_refl) eq_refl big_cast_detail eq_refl).
Defined.

(** ** Further properties of the watchlist *)

Lemma has_id_true (o : list N) (d : document) :
  has_id o d = true <-> d !! "_id" = Some (BOid o).
Proof.
  unfold has_id. destruct (d !! "_id") as [[| | | | | |o']|]; split; intros H;
    try discriminate H.
  - apply bool_decide_eq_true in H. congruence.
  - injection H as ->. apply bool_decide_eq_true. reflexivity.
Qed.

Lemma first_match_or_none (o : list N) (c : collection) :
  Forall (fun d => has_id o d = false) c \/ exists i d, first_match o c i d.
Proof.
  induction c as [|d0 c IH]; [left; constructor|].
  destruct (has_id o d0) eqn:Hd.
  - right. exists 0%nat, d0. split; [reflexivity|]. split; [assumption|].
    intros j d' Hj. lia.
  - destruct IH as [Hn | (i & d & Hi & Hd' & Hb)].
    + left. constructor; assumption.
    + right. exists (S i), d. split; [assumption|]. split; [assumption|].
      intros [|j] d' Hj Hl; simpl in Hl.
      * injection Hl as <-. assumption.
      * apply (Hb j d'); [lia | assumption].
Qed.

Lemma delete_one_first_match (o : list N) (c : collection) (i : nat) (d : document) :
  first_match o c i d -> delete_one o c = (1, delete i c).
Proof.
  revert i. induction c as [|d0 c IH]; intros i (Hi & Hd & Hbefore).
  - discriminate Hi.
  - destruct i as [|i]; simpl in *.
    + injection Hi as ->. rewrite Hd. reflexivity.
    + rewrite (Hbefore 0%nat d0) by (lia || reflexivity).
      rewrite (IH i); [reflexivity|].
      split; [assumption|]. split; [assumption|].
      intros j d' Hj Hl. apply (Hbefore (S j) d'); [lia | assumption].
Qed.

Lemma ObjectId_cases (item_id : string) :
  (exists o, ObjectId item_id = Ok o) \/ ObjectId item_id = Raise InvalidId.
Proof.
  unfold ObjectId. destruct (String.length item_id =? 24)%nat; [|right; reflexivity].
  destruct (fromhex (list_ascii_of_string item_id)) as [o|];
    [left; exists o; reflexivity | right; reflexivity].
Qed.

(** X18: What a delete does is fixed by the identifier and the collection.
    When the identifier parses and a document carries it, the answer is
    ["ok"] and the first such document, and no other, is gone.  When it
    parses and no document carries it, the handler raises the 500 that wraps
    its own 404, and when it does not parse, the 500 that wraps [InvalidId];
    in both cases the collection is as it was.  There is no other case. *)
Theorem delete_outcomes (c : collection) (item_id : string) :
  (forall o i d,
      ObjectId item_id = Ok o -> first_match o c i d ->
      delete_watchlist_item (Some c) item_id = (Ok (Status "ok"), Some (delete i c))
      /\ length (delete i c) = pred (length c))
  /\ (forall o,
      ObjectId item_id = Ok o -> Forall (fun d => has_id o d = false) c ->
      delete_watchlist_item (Some c) item_id = (Raise not_found_as_500, Some c))
  /\ (ObjectId item_id = Raise InvalidId ->
      delete_watchlist_item (Some c) item_id
      = (Raise (HTTPException 500 (StrOf InvalidId)), Some c))
  /\ ((exists o, ObjectId item_id = Ok o
                 /\ ((exists i d, first_match o c i d)
                     \/ Forall (fun d => has_id o d = false) c))
      \/ ObjectId item_id = Raise InvalidId).
Proof.
  split; [|split; [|split]].
  - intros o i d Ho Hm.
    rewrite delete_watchlist_item_some, Ho, (delete_one_first_match o c i d Hm).
    split; [reflexivity|]. destruct Hm as (Hi & _).
    pose proof (length_delete c i (ex_intro _ d Hi)) as Hlen.
    unfold collection in *. lia.
  - intros o Ho Hn.
    rewrite delete_watchlist_item_some, Ho, (delete_one_no_match o c Hn). reflexivity.
  - intros Ho. rewrite delete_watchlist_item_some, Ho. reflexivity.
  - destruct (ObjectId_cases item_id) as [[o Ho] | Ho]; [left | right; assumption].
    exists o. split; [assumption|].
    destruct (first_match_or_none o c) as [Hn | Hm]; [right | left]; assumption.
Qed.

Lemma delete_outcomes_witness :
  delete_watchlist_item (Some [other_doc; stored_doc]) stored_id
  = (Ok (Status "ok"), Some [other_doc])
  /\ delete_watchlist_item (Some [other_doc; stored_doc]) unused_id
     = (Raise not_found_as_500, Some [other_doc; stored_doc])
  /\ delete_watchlist_item (Some [other_doc; stored_doc]) "not-an-id"
     = (Raise (HTTPException 500 (StrOf InvalidId)), Some [other_doc; stored_doc]).
Proof.
  pose proof (delete_outcomes [other_doc; stored_doc] stored_id) as (Hok & _).
  pose proof (delete_outcomes [other_doc; stored_doc] unused_id) as (_ & Hno & _).
  pose proof (delete_outcomes [other_doc; stored_doc] "not-an-id") as (_ & _ & Hbad & _).
  split; [|split].
  - apply (Hok _ 1%nat stored_doc eq_refl).
    split; [reflexivity|]. split; [reflexivity|].
    intros [|j] d' Hj Hl; [injection Hl as <-; reflexivity | lia].
  - apply (Hno _ eq_refl). repeat constructor.
  - apply Hbad. reflexivity.
Defined.

(** X19: Once a document that alone carried its identifier is deleted, a second
    delete of the same identifier fails (with the 500 that hides the 404)
    and changes nothing. *)
Theorem delete_twice_fails (c : collection) (item_id : string) (o : list N)
    (i : nat) (d : document) :
  ObjectId item_id = Ok o ->
  first_match o c i d ->
  only_match o c i ->
  delete_watchlist_item (Some c) item_id = (Ok (Status "ok"), Some (delete i c))
  /\ delete_watchlist_item (Some (delete i c)) item_id
     = (Raise not_found_as_500, Some (delete i c)).
Proof.
  intros Ho Hm Honly. split.
  - rewrite delete_watchlist_item_some, Ho, (delete_one_first_match o c i d Hm).
    reflexivity.
  - rewrite delete_watchlist_item_some, Ho.
    rewrite delete_one_no_match; [reflexivity|].
    apply Forall_lookup. intros j x Hj. unfold collection in *.
    destruct (has_id o x) eqn:Hx; [exfalso | reflexivity].
    destruct (Nat.lt_ge_cases j i) as [Hlt | Hge].
    + rewrite list_lookup_delete_lt in Hj by assumption.
      pose proof (Honly j x Hj Hx). lia.
    + rewrite list_lookup_delete_ge in Hj by assumption.
      pose proof (Honly (S j) x Hj Hx). lia.
Qed.

Lemma stored_doc_only_match :
  only_match [101; 240; 0; 0; 0; 0; 0; 0; 0; 0; 0; 1]%N [stored_doc] 0.
Proof. intros [|j] d Hj _; [reflexivity | discriminate Hj]. Qed.

Lemma delete_twice_fails_witness :
  delete_watchlist_item (Some [stored_doc]) stored_id = (Ok (Status "ok"), Some [])
  /\ delete_watchlist_item (Some []) stored_id = (Raise not_found_as_500, Some []).
Proof.
  exact (delete_twice_fails [stored_doc] stored_id _ 0 stored_doc
           eq_refl stored_doc_first_match stored_doc_only_match).
Defined.

Lemma hex_digit_cases (h : N) :
  (h < 16)%N -> is_hspace (hex_digit h) = false /\ hex_val (hex_digit h) = Some h.
Proof.
  intros H.
  assert (Hh : (h = 0 \/ h = 1 \/ h = 2 \/ h = 3 \/ h = 4 \/ h = 5 \/ h = 6 \/ h = 7
               \/ h = 8 \/ h = 9 \/ h = 10 \/ h = 11 \/ h = 12 \/ h = 13 \/ h = 14
               \/ h = 15)%N) by lia.
  repeat (destruct Hh as [-> | Hh]; [split; reflexivity|]).
  subst h; split; reflexivity.
Qed.

Lemma fromhex_hexlify (o : list N) :
  Forall (fun b => (b < 256)%N) o ->
  fromhex (list_ascii_of_string (hexlify o)) = Some o.
Proof.
  induction 1 as [|b o Hb _ IH]; [reflexivity|].
  assert (Hhi : (b / 16 < 16)%N) by (apply N.Div0.div_lt_upper_bound; lia).
  assert (Hlo : (b mod 16 < 16)%N) by (apply N.mod_lt; lia).
  destruct (hex_digit_cases _ Hhi) as [Hs1 Hv1].
  destruct (hex_digit_cases _ Hlo) as [_ Hv2].
  cbn [hexlify list_ascii_of_string fromhex].
  rewrite Hs1, Hv1, Hv2, IH. simpl. f_equal. f_equal.
  rewrite (N.div_mod' b 16) at 3. reflexivity.
Qed.

Lemma length_hexlify (o : list N) : String.length (hexlify o) = (2 * length o)%nat.
Proof. induction o as [|b o IH]; simpl; [reflexivity | rewrite IH; lia]. Qed.

Lemma ObjectId_hexlify (o : list N) : twelve_bytes o -> ObjectId (hexlify o) = Ok o.
Proof.
  intros [Hl Hb]. unfold ObjectId. rewrite length_hexlify, Hl. simpl.
  rewrite (fromhex_hexlify o Hb). reflexivity.
Qed.

(** X20: The identifier text a listing shows for a document addresses that
    document: [str] of its object identifier is read back by [ObjectId] as
    the same identifier, so a delete with that text removes the document. *)
Theorem listed_id_addresses_document (c : collection) (o : list N) (i : nat)
    (d : document) :
  twelve_bytes o ->
  first_match o c i d ->
  (exists ld, stringify_id d = Ok ld
              /\ (ld !! "_id") ≫= listed_text = Some (hexlify o))
  /\ ObjectId (hexlify o) = Ok o
  /\ delete_watchlist_item (Some c) (hexlify o) = (Ok (Status "ok"), Some (delete i c)).
Proof.
  intros Ho Hm. pose proof (ObjectId_hexlify o Ho) as Hp.
  assert (Hid : d !! "_id" = Some (BOid o)) by (apply has_id_true, Hm).
  split; [|split; [assumption|]].
  - unfold stringify_id. rewrite Hid. eexists. split; [reflexivity|].
    rewrite lookup_insert_eq. reflexivity.
  - rewrite delete_watchlist_item_some, Hp, (delete_one_first_match o c i d Hm).
    reflexivity.
Qed.

Lemma stored_id_twelve_bytes : twelve_bytes [101; 240; 0; 0; 0; 0; 0; 0; 0; 0; 0; 1]%N.
Proof. split; [reflexivity|]. repeat constructor. Qed.

Lemma listed_id_addresses_document_witness :
  ObjectId stored_id = Ok [101; 240; 0; 0; 0; 0; 0; 0; 0; 0; 0; 1]%N
  /\ delete_watchlist_item (Some [stored_doc]) stored_id = (Ok (Status "ok"), Some []).
Proof.
  exact (proj2 (listed_id_addresses_document [stored_doc] _ 0 stored_doc
                  stored_id_twelve_bytes stored_doc_first_match)).
Defined.

Lemma same_ids_refl (c : collection) :
  Forall2 (fun d d' : document => d' !! "_id" = d !! "_id") c c.
Proof. induction c; constructor; [reflexivity | assumption]. Qed.

Lemma update_one_keeps_ids (o : list N) (fields : list (string * bson)) (c : collection) :
  (forall d, set_fields fields d !! "_id" = d !! "_id") ->
  length (snd (update_one o fields c)) = length c
  /\ Forall2 (fun d d' : document => d' !! "_id" = d !! "_id")
       c (snd (update_one o fields c)).
Proof.
  intros Hid. induction c as [|d c [IHl IHf]]; simpl.
  - split; [reflexivity | constructor].
  - destruct (has_id o d).
    + simpl. split; [reflexivity|]. constructor; [apply Hid | apply same_ids_refl].
    + destruct (update_one o fields c) as [n c']. simpl in *.
      split; [congruence|]. constructor; [reflexivity | assumption].
Qed.

Lemma set_fields_keeps_id (p : WatchlistUpdate) (now : Z) (d : document) :
  set_fields (update_data p ++ [("updated_at", BDate now)]) d !! "_id" = d !! "_id".
Proof.
  apply (set_fields_update_data p now d). unfold mutable_fields. simpl.
  intros [H|[H|[H|[H|[]]]]]; discriminate H.
Qed.

(** X21: Whatever the identifier and the payload are, an update leaves the
    collection with the same number of documents, each with the identifier
    it had: it inserts nothing, removes nothing, and renames nothing. *)
Theorem update_keeps_documents (c : collection) (now : Z) (item_id : string)
    (p : WatchlistUpdate) :
  exists r c',
    update_watchlist_item (Some c) now item_id p = (r, Some c')
    /\ length c' = length c
    /\ Forall2 (fun d d' : document => d' !! "_id" = d !! "_id") c c'.
Proof.
  destruct (provides_fields p) eqn:Hp.
  - rewrite (update_watchlist_item_fields c now item_id p Hp).
    destruct (ObjectId item_id) as [o|e].
    + pose proof (update_one_keeps_ids o _ c (set_fields_keeps_id p now)) as [Hl Hf].
      destruct (update_one o _ c) as [n c']. simpl in *.
      destruct (n =? 0); eexists; eexists; (split; [reflexivity|]); split; assumption.
    + eexists; eexists. split; [reflexivity|]. split; [reflexivity | apply same_ids_refl].
  - unfold update_watchlist_item, with_db, try_except.
    rewrite (update_data_empty p Hp).
    eexists; eexists. split; [reflexivity|]. split; [reflexivity | apply same_ids_refl].
Qed.

(** X22: What an update that provides a field does is fixed by the
    identifier and the collection.  When the identifier parses and a
    document carries it, the answer is ["ok"] and the first such document is
    rewritten in place with the provided fields and [updated_at].  When it
    parses and no document carries it, the handler raises the 500 that wraps
    its own 404, and when it does not parse, the 500 that wraps [InvalidId];
    in both cases the collection is as it was.  There is no other case. *)
Theorem update_outcomes (c : collection) (now : Z) (item_id : string)
    (p : WatchlistUpdate) :
  provides_fields p = true ->
  (forall o i d,
      ObjectId item_id = Ok o -> first_match o c i d ->
      update_watchlist_item (Some c) now item_id p
      = (Ok (Status "ok"),
         Some (<[i := set_fields (update_data p ++ [("updated_at", BDate now)]) d]> c)))
  /\ (forall o,
      ObjectId item_id = Ok o -> Forall (fun d => has_id o d = false) c ->
      update_watchlist_item (Some c) now item_id p = (Raise not_found_as_500, Some c))
  /\ (ObjectId item_id = Raise InvalidId ->
      update_watchlist_item (Some c) now item_id p
      = (Raise (HTTPException 500 (StrOf InvalidId)), Some c))
  /\ ((exists o, ObjectId item_id = Ok o
                 /\ ((exists i d, first_match o c i d)
                     \/ Forall (fun d => has_id o d = false) c))
      \/ ObjectId item_id = Raise InvalidId).
Proof.
  intros Hp. split; [|split; [|split]].
  - intros o i d Ho Hm.
    rewrite (update_watchlist_item_fields c now item_id p Hp), Ho.
    rewrite (update_one_first_match o _ c i d Hm). reflexivity.
  - intros o Ho Hn.
    rewrite (update_watchlist_item_fields c now item_id p Hp), Ho.
    rewrite (update_one_no_match o _ c Hn). reflexivity.
  - intros Ho. rewrite (update_watchlist_item_fields c now item_id p Hp), Ho.
    reflexivity.
  - destruct (ObjectId_cases item_id) as [[o Ho] | Ho]; [left | right; assumption].
    exists o. split; [assumption|].
    destruct (first_match_or_none o c) as [Hn | Hm]; [right | left]; assumption.
Qed.

Lemma update_outcomes_witness :
  update_watchlist_item (Some [other_doc; stored_doc]) 2000 stored_id mark_watched
  = (Ok (Status "ok"),
     Some [other_doc;
           set_fields (update_data mark_watched ++ [("updated_at", BDate 2000)])
             stored_doc])
  /\ update_watchlist_item (Some [other_doc; stored_doc]) 2000 unused_id mark_watched
     = (Raise not_found_as_500, Some [other_doc; stored_doc])
  /\ update_watchlist_item (Some [other_doc; stored_doc]) 2000 "not-an-id" mark_watched
     = (Raise (HTTPException 500 (StrOf InvalidId)), Some [other_doc; stored_doc]).
Proof.
  pose proof (update_outcomes [other_doc; stored_doc] 2000 stored_id mark_watched
                eq_refl) as (Hok & _).
  pose proof (update_outcomes [other_doc; stored_doc] 2000 unused_id mark_watched
                eq_refl) as (_ & Hno & _).
  pose proof (update_outcomes [other_doc; stored_doc] 2000 "not-an-id" mark_watched
                eq_refl) as (_ & _ & Hbad & _).
  split; [|split].
  - apply (Hok _ 1%nat stored_doc eq_refl).
    split; [reflexivity|]. split; [reflexivity|].
    intros [|j] d' Hj Hl; [injection Hl as <-; reflexivity | lia].
  - apply (Hno _ eq_refl). repeat constructor.
  - apply Hbad. reflexivity.
Defined.

Lemma set_fields_written (p : WatchlistUpdate) (now : Z) (d : document) (k : string) :
  In k ["status"; "liked"; "rating"] ->
  set_fields (update_data p ++ [("updated_at", BDate now)]) d !! k
  = match written p k with
    | Some v => Some v
    | None => d !! k
    end.
Proof.
  destruct (set_fields_update_data p now d) as (_ & Hs & Hl & Hr & _).
  intros [<- | [<- | [<- | []]]]; unfold written; simpl.
  - rewrite Hs. destruct (wu_status p); reflexivity.
  - rewrite Hl. destruct (wu_liked p); reflexivity.
  - rewrite Hr. destruct (wu_rating p); reflexivity.
Qed.

Lemma first_match_insert (o : list N) (c : collection) (i : nat) (d d' : document) :
  first_match o c i d -> d' !! "_id" = d !! "_id" ->
  first_match o (<[i := d']> c) i d'.
Proof.
  intros (Hi & Hd & Hb) Hid. unfold first_match, collection in *.
  split; [|split].
  - apply list_lookup_insert_eq. apply lookup_lt_Some in Hi. assumption.
  - apply has_id_true. rewrite Hid. apply has_id_true. assumption.
  - intros j x Hj Hl. rewrite list_lookup_insert_ne in Hl by lia.
    apply (Hb j x); assumption.
Qed.

(** X23: Two updates of the same document, one after the other: both answer
    ["ok"]; each of status, liked and rating ends with the value of the
    second update when it provides one, else with that of the first, else
    with the stored value; [updated_at] is the time of the second; every
    other field is as stored. *)
Theorem update_twice_last_write_wins (c : collection) (t1 t2 : Z)
    (item_id : string) (p1 p2 : WatchlistUpdate) (o : list N) (i : nat)
    (d : document) :
  ObjectId item_id = Ok o ->
  provides_fields p1 = true -> provides_fields p2 = true ->
  first_match o c i d ->
  exists c1 d2,
    update_watchlist_item (Some c) t1 item_id p1 = (Ok (Status "ok"), Some c1)
    /\ update_watchlist_item (Some c1) t2 item_id p2
       = (Ok (Status "ok"), Some (<[i := d2]> c))
    /\ d2 !! "updated_at" = Some (BDate t2)
    /\ (forall k, In k ["status"; "liked"; "rating"] ->
          d2 !! k = match written p2 k with
                    | Some v => Some v
                    | None => match written p1 k with
                              | Some v => Some v
                              | None => d !! k
                              end
                    end)
    /\ forall k, ~ In k mutable_fields -> d2 !! k = d !! k.
Proof.
  intros Ho Hp1 Hp2 Hm.
  set (d1 := set_fields (update_data p1 ++ [("updated_at", BDate t1)]) d).
  set (d2 := set_fields (update_data p2 ++ [("updated_at", BDate t2)]) d1).
  assert (Hm1 : first_match o (<[i := d1]> c) i d1)
    by (apply (first_match_insert o c i d d1 Hm), set_fields_keeps_id).
  exists (<[i := d1]> c), d2. split; [|split; [|split; [|split]]].
  - rewrite (update_watchlist_item_fields c t1 item_id p1 Hp1), Ho.
    rewrite (update_one_first_match o _ c i d Hm). reflexivity.
  - rewrite (update_watchlist_item_fields _ t2 item_id p2 Hp2), Ho.
    rewrite (update_one_first_match o _ _ i d1 Hm1). cbv zeta.
    unfold collection in *. rewrite list_insert_insert_eq. reflexivity.
  - apply (set_fields_update_data p2 t2 d1).
  - intros k Hk. unfold d2, d1. rewrite !set_fields_written by assumption.
    reflexivity.
  - intros k Hk. unfold d2, d1.
    destruct (set_fields_update_data p2 t2
                (set_fields (update_data p1 ++ [("updated_at", BDate t1)]) d))
      as (_ & _ & _ & _ & H2).
    destruct (set_fields_update_data p1 t1 d) as (_ & _ & _ & _ & H1).
    rewrite H2, H1 by assumption. reflexivity.
Qed.

Lemma update_twice_last_write_wins_witness :
  exists c1 d2,
    update_watchlist_item (Some [stored_doc]) 2000 stored_id mark_watched
    = (Ok (Status "ok"), Some c1)
    /\ update_watchlist_item (Some c1) 3000 stored_id rate_it
       = (Ok (Status "ok"), Some [d2])
    /\ d2 !! "updated_at" = Some (BDate 3000)
    /\ d2 !! "status" = Some (BStr "watched")
    /\ d2 !! "liked" = Some (BBool true).
Proof.
  destruct (update_twice_last_write_wins [stored_doc] 2000 3000 stored_id
              mark_watched rate_it _ 0 stored_doc
              eq_refl eq_refl eq_refl stored_doc_first_match)
    as (c1 & d2 & H1 & H2 & Hu & Hk & _).
  exists c1, d2. split; [exact H1|]. split; [exact H2|]. split; [exact Hu|].
  split.
  - exact (Hk "status" (or_introl eq_refl)).
  - exact (Hk "liked" (or_intror (or_introl eq_refl))).
Defined.

(** *** Listing *)

Lemma insert_desc_perm (k : string) (d : document) (l : list document) :
  Permutation (insert_desc k d l) (d :: l).
Proof.
  induction l as [|d' l IH]; simpl; [reflexivity|].
  destruct (date_key k d' <? date_key k d); [reflexivity|].
  rewrite IH. apply perm_swap.
Qed.

Lemma sort_dates_perm (k : string) (direction : Z) (l : list document) :
  Permutation (sort_dates k direction l) l.
Proof.
  unfold sort_dates.
  assert (H : Permutation (fold_right (insert_desc k) [] l) l).
  { induction l as [|d l IH]; simpl; [reflexivity|].
    rewrite insert_desc_perm, IH. reflexivity. }
  destruct (direction <? 0); [assumption|].
  rewrite <- H at 2. symmetry. apply Permutation_rev.
Qed.

Lemma find_In (filt : list (string * string)) (c : collection) (d : document) :
  In d (find filt c) <-> In d c /\ forall k v, In (k, v) filt -> d !! k = Some (BStr v).
Proof.
  unfold find. rewrite filter_In, forallb_forall. split; intros [Hc Hf]; (split; [assumption|]).
  - intros k v Hkv. specialize (Hf (k, v) Hkv). unfold matches_field in Hf. simpl in Hf.
    destruct (d !! k) as [[| | | |s| |]|]; try discriminate.
    apply String.eqb_eq in Hf. congruence.
  - intros [k v] Hkv. unfold matches_field. simpl. rewrite (Hf k v Hkv).
    apply String.eqb_refl.
Qed.

Lemma stringify_id_lookup (d : document) (ld : gmap string listed) (k : string) :
  stringify_id d = Ok ld -> k <> "_id" -> ld !! k = Stored <$> (d !! k).
Proof.
  unfold stringify_id. destruct (d !! "_id"); [|discriminate].
  intros [= <-] Hk. rewrite lookup_insert_ne by congruence. apply lookup_fmap.
Qed.

Lemma mapM_In {A B : Type} (f : A -> result B) (l : list A) (l' : list B) :
  mapM f l = Ok l' ->
  (forall b, In b l' -> exists a, In a l /\ f a = Ok b)
  /\ (forall a, In a l -> exists b, In b l' /\ f a = Ok b).
Proof.
  intros H. apply mapM_Forall2 in H.
  induction H as [|a b l l' Hab _ [IH1 IH2]]; split; simpl; try tauto.
  - intros b0 [<- | Hb]; [exists a; tauto|].
    destruct (IH1 b0 Hb) as (a0 & Ha0 & Hf). exists a0; tauto.
  - intros a0 [<- | Ha]; [exists b; tauto|].
    destruct (IH2 a0 Ha) as (b0 & Hb0 & Hf). exists b0; tauto.
Qed.

Lemma watchlist_filter_spec (user_id : string) (status : option string) (d : document) :
  (forall k v, In (k, v) (watchlist_filter user_id status) -> d !! k = Some (BStr v))
  <-> d !! "user_id" = Some (BStr user_id) /\ status_wanted status (d !! "status").
Proof.
  unfold watchlist_filter, status_wanted. split.
  - intros H. split; [apply H; left; reflexivity|].
    destruct status as [[|c s]|]; try exact I.
    apply H. right. left. reflexivity.
  - intros [Hu Hs] k v [[= <- <-] | Hin]; [assumption|].
    destruct status as [[|c s]|]; try destruct Hin as [[= <- <-] | []]; try destruct Hin.
    assumption.
Qed.

(** X26: A listing shows only documents of the user asked for and, when a
    non-empty status is given, of that status; each listed document is a
    stored one with its identifier turned into text and every other field
    as stored. *)
Theorem get_watchlist_sound
    (sort : string -> Z -> list document -> list document)
    (c : collection) (user_id : string) (status : option string)
    (items : list (gmap string listed)) :
  (forall k dir l, Permutation (sort k dir l) l) ->
  get_watchlist sort (Some c) user_id status = Ok items ->
  Forall (fun it =>
            it !! "user_id" = Some (Stored (BStr user_id))
            /\ status_wanted status (it !! "status" ≫= fun v =>
                                       match v with Stored b => Some b | _ => None end)
            /\ exists d, In d c /\ stringify_id d = Ok it
                         /\ forall k, k <> "_id" -> it !! k = Stored <$> (d !! k))
         items.
Proof.
  intros Hsort H. unfold get_watchlist in H.
  apply mapM_In in H as [H _]. apply List.Forall_forall. intros it Hit.
  destruct (H it Hit) as (d & Hd & Hs).
  apply (Permutation_in _ (Hsort _ _ _)) in Hd.
  apply find_In in Hd as [Hc Hf]. apply watchlist_filter_spec in Hf as [Hu Hst].
  split; [|split].
  - rewrite (stringify_id_lookup d it "user_id" Hs) by discriminate.
    rewrite Hu. reflexivity.
  - rewrite (stringify_id_lookup d it "status" Hs) by discriminate.
    destruct status as [[|ch s]|]; try exact I. simpl in *. rewrite Hst. reflexivity.
  - exists d. split; [assumption|]. split; [assumption|].
    intros k Hk. apply stringify_id_lookup; assumption.
Qed.

(** X27: A listing misses nothing: when it answers, every stored document of
    the user (and of the status, when a non-empty one is given) is listed,
    and the listing has as many entries as there are such documents.  An
    empty status is no filter. *)
Theorem get_watchlist_complete
    (sort : string -> Z -> list document -> list document)
    (c : collection) (user_id : string) (status : option string)
    (items : list (gmap string listed)) :
  (forall k dir l, Permutation (sort k dir l) l) ->
  get_watchlist sort (Some c) user_id status = Ok items ->
  length items = length (find (watchlist_filter user_id status) c)
  /\ (forall d, In d c -> d !! "user_id" = Some (BStr user_id) ->
        status_wanted status (d !! "status") ->
        exists it, In it items /\ stringify_id d = Ok it)
  /\ get_watchlist sort (Some c) user_id (Some EmptyString)
     = get_watchlist sort (Some c) user_id None.
Proof.
  intros Hsort H. unfold get_watchlist in H. split; [|split].
  - apply mapM_Forall2 in H. apply Forall2_length_eq in H. rewrite <- H.
    apply Permutation_length, Hsort.
  - intros d Hd Hu Hst. apply mapM_In in H as [_ H]. apply H.
    apply (Permutation_in _ (Permutation_sym (Hsort _ _ _))).
    apply find_In. split; [assumption|].
    apply watchlist_filter_spec. split; assumption.
  - reflexivity.
Qed.

Lemma get_watchlist_two_users :
  get_watchlist sort_dates (Some [stored_doc; other_doc]) "u1" None
  = Ok [listed_stored_doc].
Proof. vm_compute. reflexivity. Qed.

Lemma get_watchlist_sound_witness :
  Forall (fun it => it !! "user_id" = Some (Stored (BStr "u1"))) [listed_stored_doc].
Proof.
  pose proof (get_watchlist_sound sort_dates [stored_doc; other_doc] "u1" None
                [listed_stored_doc] sort_dates_perm get_watchlist_two_users) as H.
  inversion H as [|? ? [Hu _] _]; subst. constructor; [exact Hu | constructor].
Defined.

Lemma get_watchlist_complete_witness :
  length [listed_stored_doc] = 1%nat
  /\ exists it, In it [listed_stored_doc] /\ stringify_id stored_doc = Ok it.
Proof.
  destruct (get_watchlist_complete sort_dates [stored_doc; other_doc] "u1" None
              [listed_stored_doc] sort_dates_perm get_watchlist_two_users)
    as (Hl & Hd & _).
  split; [exact Hl|].
  apply Hd; [left; reflexivity | reflexivity | exact I].
Defined.
